(** * accept-nano: the HTTP and websocket handlers of [http.go]

    A shallow embedding of [handlePay], [handleVerify] and [handleWebsocket]
    together with the closure [handleWebsocket] registers on the event bus.

    The handlers are glue code: they call the price oracle, the index
    allocator, the node RPC client, the token codec, the payment store, the
    check scheduler and the event bus, none of which is defined in [http.go].
    Those collaborators are parameters of the development (class
    [Collaborators]); every theorem holds for all of them.  A handler is a
    computation in a small monad that threads the state of the outside world
    and appends every call it makes to a trace, so that statements such as
    "[NewIndex] is never called" or "[Save] comes before [StartChecking]" are
    statements about that trace. *)

From Stdlib Require Import Ascii String.
From stdpp Require Import base strings gmap list.

Local Open Scope Z_scope.
Local Open Scope string_scope.
Local Open Scope list_scope.

(** ** Carrier types declared outside [http.go] *)

Class Domain := {
  World : Type;            (* the state behind the collaborators: store, node, oracle, bus, clock, connections *)
  error : Type;            (* non-nil values of Go's [error] interface *)
  error_eq_dec :: EqDecision error;
  Decimal : Type;          (* decimal.Decimal *)
  Raw : Type;              (* result type of [NanoToRaw] *)
  Time : Type;             (* time.Time *)
  ResponseWriter : Type;   (* http.ResponseWriter *)
  CancelFunc : Type;       (* the func() returned by [Subscribe] *)
  OtherEvent : Type;       (* dynamic types implementing [Event] other than [PaymentVerified] *)
}.

Definition bytes := string.
Definition Index := N.

(** [type Account string]; [Account(s)] is the conversion. *)
Definition Account := string.
Definition to_Account (s : string) : Account := s.

(** [[]byte(s)] *)
Definition to_bytes (s : string) : bytes := s.

(** ** net/http *)

Definition MethodPost : string := "POST".
Definition StatusBadRequest : Z := 400.
Definition StatusNotFound : Z := 404.
Definition StatusMethodNotAllowed : Z := 405.
Definition StatusInternalServerError : Z := 500.

(** [http.StatusText], restricted to the codes [http.go] names. *)
Definition StatusText (code : Z) : string :=
  if decide (code = StatusBadRequest) then "Bad Request"
  else if decide (code = StatusNotFound) then "Not Found"
  else if decide (code = StatusMethodNotAllowed) then "Method Not Allowed"
  else if decide (code = StatusInternalServerError) then "Internal Server Error"
  else "".

(** The part of [*http.Request] the handlers read: the method and the parsed
    form ([url.Values], a [map[string][]string]). *)
Record Request := {
  Method : string;
  Form : gmap string (list string);
}.

(** The value [r.FormValue(key)] evaluates to: the first value stored under
    [key], or the empty string. *)
Definition form_value (r : Request) (key : string) : string :=
  match Form r !! key with
  | Some (v :: _) => v
  | _ => ""
  end.

(** [*websocket.Conn]: [conn.Request()] is the request that opened it. *)
Record Conn := {
  conn_id : N;
  Conn_Request : Request;
}.

(** ** strings.ToUpper

    Go's implementation has a fast path for strings made of ASCII bytes only
    (bytes below [utf8.RuneSelf = 0x80]): lower-case letters are shifted by
    ['a' - 'A'], everything else is kept.  Other strings go through
    [strings.Map(unicode.ToUpper, s)], which is a parameter here. *)

Definition RuneSelf : N := 128.

Definition is_ascii_byte (c : ascii) : bool := (N_of_ascii c <? RuneSelf)%N.

Definition is_lower_byte (c : ascii) : bool :=
  ((N_of_ascii "a"%char <=? N_of_ascii c)%N && (N_of_ascii c <=? N_of_ascii "z"%char)%N)%bool.

Definition upper_byte (c : ascii) : ascii :=
  if is_lower_byte c
  then ascii_of_N (N_of_ascii c - (N_of_ascii "a"%char - N_of_ascii "A"%char))
  else c.

Fixpoint isASCII (s : string) : bool :=
  match s with
  | EmptyString => true
  | String c s' => is_ascii_byte c && isASCII s'
  end.

Fixpoint hasLower (s : string) : bool :=
  match s with
  | EmptyString => false
  | String c s' => is_lower_byte c || hasLower s'
  end.

Fixpoint map_bytes (f : ascii -> ascii) (s : string) : string :=
  match s with
  | EmptyString => EmptyString
  | String c s' => String (f c) (map_bytes f s')
  end.

Definition ToUpper (unicode_upper : string -> string) (s : string) : string :=
  if isASCII s then
    if negb (hasLower s) then s else map_bytes upper_byte s
  else unicode_upper s.

(** ** Data model *)

Section DataModel.
Context `{D : Domain}.

(** The fields of [Payment] that [handlePay] sets in its composite literal.
    The struct is declared outside [http.go]; the literal leaves every other
    field at its zero value.  [Save] and [StartChecking] are called on the
    pointer to the struct; the record below is the struct as the handler
    built it, which is what they receive. *)
Record Payment := {
  Payment_PublicKey : string;
  Payment_Account : string;
  Payment_Index : Index;
  Payment_Amount : Raw;
  Payment_AmountInCurrency : Decimal;
  Payment_Currency : string;
  Payment_State : string;
  Payment_CreatedAt : Time;
}.

(** The two fields of the result of [node.DeterministicKey] that are read. *)
Record Key := {
  Key_Public : string;
  Key_Account : string;
}.

(** The field of the result of [ParseToken] that is read. *)
Record TokenClaims := {
  Claims_Account : string;
}.

(** [type PaymentVerified struct { Payment }] *)
Record PaymentVerified := {
  pv_Payment : Payment;
}.

(** [func (p PaymentVerified) Account() Account] *)
Definition PaymentVerified_Account (p : PaymentVerified) : Account :=
  to_Account (Payment_Account (pv_Payment p)).

(** A value of the interface type [Event], by its dynamic type. *)
Inductive Event :=
| EvNil
| EvPaymentVerified (pv : PaymentVerified)
| EvOther (o : OtherEvent).

(** Modelled from the spec: [NewResponse] and the [Response] struct are
    defined outside [http.go].  The spec has a payment returned "together
    with an opaque bearer token" (section 4.6) and has the payment's fields,
    [State] among them, "echoed back unmodified" (section 3): the response
    is the payment next to its token. *)
Record Response := {
  Response_Payment : Payment;
  Response_Token : string;
}.

Definition NewResponse (p : Payment) (token : string) : Response :=
  {| Response_Payment := p; Response_Token := token |}.

(** ** Traces *)

Inductive LogArg :=
| LErr (e : error)
| LStr (s : string)
| LBytes (b : bytes).

(** One entry per call a handler makes, with its arguments and, where the
    call returns something, what it returned.  A Go result pair
    [(v, err)] is [inl v] when [err == nil] and [inr err] otherwise; a lone
    [error] result is [None] for [nil]. *)
Inductive Action :=
| AFormValue (key : string)
| AHttpError (w : ResponseWriter) (msg : string) (code : Z)
| ARwWrite (w : ResponseWriter) (b : bytes) (res : Z * option error)
| ALogDebug (args : list LogArg)
| ALogError (args : list LogArg)
| AGetNanoPrice (currency : string) (res : Decimal + error)
| ANewIndex (res : Index + error)
| ADeterministicKey (seed : string) (index : Index) (res : Key + error)
| ANewToken (index : Index) (account : string) (res : string + error)
| ATimeNow (t : Time)
| ASave (p : Payment) (res : option error)
| AStartChecking (p : Payment)
| AParseToken (token : string) (res : TokenClaims + error)
| ALoadPayment (account : bytes) (res : Payment + error)
| ASubscribe (a : Account) (c : CancelFunc)
| ACancel (c : CancelFunc)
| AConnRead (conn : Conn) (res : Z * option error)
| AConnWrite (conn : Conn) (b : bytes) (res : Z * option error).

(** ** The handler monad *)

(** How a call ended: it returned, it panicked, or it is still inside its
    loop when the observation stops. *)
Inductive Outcome (A : Type) :=
| Returned (a : A)
| Panicked
| Running.
#[global] Arguments Returned {A} a.
#[global] Arguments Panicked {A}.
#[global] Arguments Running {A}.

Record Run (A : Type) := {
  outcome : Outcome A;
  final : World;
  trace : list Action;
}.
#[global] Arguments outcome {A} _.
#[global] Arguments final {A} _.
#[global] Arguments trace {A} _.

Definition M (A : Type) : Type := World -> Run A.

Definition ret {A} (a : A) : M A :=
  fun w => {| outcome := Returned a; final := w; trace := [] |}.

(** [prepend t r]: the run [r], after the calls [t]. *)
Definition prepend {A} (t : list Action) (r : Run A) : Run A :=
  match r with
  | Build_Run _ o w t' => {| outcome := o; final := w; trace := t ++ t' |}
  end.

Definition bind {A B} (m : M A) (k : A -> M B) : M B :=
  fun w =>
    match m w with
    | Build_Run _ (Returned a) w' t => prepend t (k a w')
    | Build_Run _ Panicked w' t => {| outcome := Panicked; final := w'; trace := t |}
    | Build_Run _ Running w' t => {| outcome := Running; final := w'; trace := t |}
    end.

#[global] Instance M_ret : MRet M := @ret.
#[global] Instance M_bind : MBind M := fun A B k m => bind m k.

(** A runtime panic, and a loop that has not ended yet. *)
Definition panic {A} : M A :=
  fun w => {| outcome := Panicked; final := w; trace := [] |}.

Definition running {A} : M A :=
  fun w => {| outcome := Running; final := w; trace := [] |}.

(** A call that only leaves an entry in the trace. *)
Definition emit (a : Action) : M unit :=
  fun w => {| outcome := Returned tt; final := w; trace := [a] |}.

(** A call into a collaborator: it reads and updates the world, and the
    trace entry records what it returned. *)
Definition call {A} (f : World -> A * World) (act : A -> Action) : M A :=
  fun w =>
    let '(a, w') := f w in
    {| outcome := Returned a; final := w'; trace := [act a] |}.

(** [defer d()] in front of [body]: [d] runs when [body] returns and when
    it panics; it does not run while [body] has not ended. *)
Definition defer {A} (d : M unit) (body : M A) : M A :=
  fun w =>
    match body w with
    | Build_Run _ (Returned a) w' t =>
        match d w' with
        | Build_Run _ (Returned _) w'' t' =>
            {| outcome := Returned a; final := w''; trace := t ++ t' |}
        | Build_Run _ Panicked w'' t' =>
            {| outcome := Panicked; final := w''; trace := t ++ t' |}
        | Build_Run _ Running w'' t' =>
            {| outcome := Running; final := w''; trace := t ++ t' |}
        end
    | Build_Run _ Panicked w' t =>
        match d w' with
        | Build_Run _ _ w'' t' =>
            {| outcome := Panicked; final := w''; trace := t ++ t' |}
        end
    | Build_Run _ Running w' t =>
        {| outcome := Running; final := w'; trace := t |}
    end.

(** ** Collaborators

    Everything [http.go] calls and does not define.  Pure library functions
    are functions; calls that touch the store, the node, the bus, the clock
    or a connection take the world and return it.  [http.Error] and the
    [log] calls return nothing the handlers look at: they are trace entries
    only. *)
Class Collaborators := {
  config_Seed : string;
  errPaymentNotFound : error;
  (* shopspring/decimal; [DivRound] panics on a zero divisor: [None] *)
  NewFromString : string -> Decimal + error;
  DivRound : Decimal -> Decimal -> Z -> option Decimal;
  NanoToRaw : Decimal -> Raw;
  (* strings.Map(unicode.ToUpper, s), the slow path of strings.ToUpper *)
  unicode_ToUpper : string -> string;
  UTC : Time -> Time;
  json_Marshal : Response -> bytes + error;
  getNanoPrice : string -> World -> (Decimal + error) * World;
  NewIndex : World -> (Index + error) * World;
  DeterministicKey : string -> Index -> World -> (Key + error) * World;
  NewToken : Index -> string -> World -> (string + error) * World;
  time_Now : World -> Time * World;
  Save : Payment -> World -> option error * World;
  StartChecking : Payment -> World -> World;
  rw_Write : ResponseWriter -> bytes -> World -> (Z * option error) * World;
  ParseToken : string -> World -> (TokenClaims + error) * World;
  LoadPayment : bytes -> World -> (Payment + error) * World;
  Subscribe : Account -> (Event -> M unit) -> World -> CancelFunc * World;
  invoke_cancel : CancelFunc -> World -> World;
  conn_Read : Conn -> Z -> World -> (Z * option error) * World;
  conn_Write : Conn -> bytes -> World -> (Z * option error) * World;
}.

End DataModel.

(** ** The handlers *)

Section Handlers.
Context `{D : Domain} `{C : !Collaborators}.

Definition FormValue (r : Request) (key : string) : M string :=
  emit (AFormValue key);; mret (form_value r key).

Definition http_Error (w : ResponseWriter) (msg : string) (code : Z) : M unit :=
  emit (AHttpError w msg code).

Definition log_Debug (args : list LogArg) : M unit := emit (ALogDebug args).
Definition log_Error (args : list LogArg) : M unit := emit (ALogError args).

Definition internal_server_error (w : ResponseWriter) : M unit :=
  http_Error w (StatusText StatusInternalServerError) StatusInternalServerError.

(** [handlePay], from [currency = strings.ToUpper(currency)] to the end:
    both branches of the [if currency != ""] that do not return continue
    here, with the [amount] and [currency] they assigned. *)
Definition handlePay_create (w : ResponseWriter) (r : Request)
    (amountInCurrency amount : Decimal) (currency : string) : M unit :=
  let currency := ToUpper unicode_ToUpper currency in
  ri ← call NewIndex ANewIndex;
  match ri with
  | inr err => log_Error [LErr err];; internal_server_error w
  | inl index =>
    rk ← call (DeterministicKey config_Seed index) (ADeterministicKey config_Seed index);
    match rk with
    | inr err => log_Error [LErr err];; internal_server_error w
    | inl key =>
      rt ← call (NewToken index (Key_Account key)) (ANewToken index (Key_Account key));
      match rt with
      | inr err => log_Error [LErr err];; internal_server_error w
      | inl token =>
        state ← FormValue r "state";
        now ← call time_Now ATimeNow;
        let payment := {|
          Payment_PublicKey := Key_Public key;
          Payment_Account := Key_Account key;
          Payment_Index := index;
          Payment_Amount := NanoToRaw amount;
          Payment_AmountInCurrency := amountInCurrency;
          Payment_Currency := currency;
          Payment_State := state;
          Payment_CreatedAt := UTC now;
        |} in
        rs ← call (Save payment) (ASave payment);
        match rs with
        | Some err => log_Error [LErr err];; internal_server_error w
        | None =>
          call (fun s => (tt, StartChecking payment s)) (fun _ => AStartChecking payment);;
          let response := NewResponse payment token in
          match json_Marshal response with
          | inr err => log_Error [LErr err];; internal_server_error w
          | inl b =>
            log_Debug [LStr "created new payment: %s"; LBytes b];;
            rw ← call (rw_Write w b) (ARwWrite w b);
            match rw.2 with
            | Some err => log_Debug [LErr err]
            | None => mret tt
            end
          end
        end
      end
    end
  end.

Definition handlePay (w : ResponseWriter) (r : Request) : M unit :=
  if decide (Method r ≠ MethodPost) then
    http_Error w "POST only" StatusMethodNotAllowed
  else
    a ← FormValue r "amount";
    match NewFromString a with
    | inr err => log_Debug [LErr err];; http_Error w "invalid amount" StatusBadRequest
    | inl amountInCurrency =>
      currency ← FormValue r "currency";
      if decide (currency ≠ "") then
        rp ← call (getNanoPrice currency) (AGetNanoPrice currency);
        match rp with
        | inr err2 => log_Error [LErr err2];; internal_server_error w
        | inl price =>
          match DivRound amountInCurrency price 6 with
          | None => panic
          | Some amount => handlePay_create w r amountInCurrency amount currency
          end
        end
      else
        handlePay_create w r amountInCurrency amountInCurrency "BCB"
    end.

Definition handleVerify (w : ResponseWriter) (r : Request) : M unit :=
  token ← FormValue r "token";
  if decide (token = "") then
    http_Error w "invalid token" StatusBadRequest
  else
    rc ← call (ParseToken token) (AParseToken token);
    match rc with
    | inr _ => http_Error w "invalid token" StatusBadRequest
    | inl claims =>
      rl ← call (LoadPayment (to_bytes (Claims_Account claims)))
                (ALoadPayment (to_bytes (Claims_Account claims)));
      match rl with
      | inr err =>
        if decide (err = errPaymentNotFound) then
          log_Debug [LStr "token not found:"; LStr token];;
          http_Error w (StatusText StatusNotFound) StatusNotFound
        else
          log_Error [LErr err];; internal_server_error w
      | inl payment =>
        let response := NewResponse payment token in
        match json_Marshal response with
        | inr err => log_Error [LErr err];; internal_server_error w
        | inl b =>
          rw ← call (rw_Write w b) (ARwWrite w b);
          match rw.2 with
          | Some err => log_Debug [LErr err]
          | None => mret tt
          end
        end
      end
    end.

(** The closure [handleWebsocket] hands to [Subscribe]; it captures [conn]
    and [token].  [e.(PaymentVerified)] is the one-result form of the type
    assertion: it panics unless the dynamic type of [e] is
    [PaymentVerified]. *)
Definition subscriber (conn : Conn) (token : string) (e : Event) : M unit :=
  match e with
  | EvPaymentVerified pv =>
    let response := NewResponse (pv_Payment pv) token in
    match json_Marshal response with
    | inr _ => mret tt
    | inl b => call (conn_Write conn b) (AConnWrite conn b);; mret tt
    end
  | EvNil | EvOther _ => panic
  end.

Definition readBufferSize : Z := 1024.

(** [for { _, err := conn.Read(buf); if err != nil { return } }], observed
    for at most [fuel] reads. *)
Fixpoint readLoop (fuel : nat) (conn : Conn) : M unit :=
  match fuel with
  | O => running
  | S fuel' =>
    rd ← call (conn_Read conn readBufferSize) (AConnRead conn);
    match rd.2 with
    | Some _ => mret tt
    | None => readLoop fuel' conn
    end
  end.

(** The client is gone after [n] frames: [n] reads on [conn] succeed and
    the next one reports an error. *)
Fixpoint disconnects_after (n : nat) (conn : Conn) (w : World) : bool :=
  let rd := conn_Read conn readBufferSize w in
  match rd.1.2, n with
  | Some _, O => true
  | None, S n' => disconnects_after n' conn rd.2
  | _, _ => false
  end.

Definition handleWebsocket (fuel : nat) (conn : Conn) : M unit :=
  let r := Conn_Request conn in
  token ← FormValue r "token";
  if decide (token = "") then
    mret tt
  else
    rc ← call (ParseToken token) (AParseToken token);
    match rc with
    | inr _ => mret tt
    | inl claims =>
      cancel ← call (Subscribe (to_Account (Claims_Account claims)) (subscriber conn token))
                    (ASubscribe (to_Account (Claims_Account claims)));
      defer (call (fun s => (tt, invoke_cancel cancel s)) (fun _ => ACancel cancel))
            (readLoop fuel conn)
    end.

End Handlers.

(** ** Reading traces *)

Section TraceQueries.
Context `{D : Domain}.

Definition is_FormValue (a : Action) : bool :=
  match a with AFormValue _ => true | _ => false end.
Definition is_GetNanoPrice (a : Action) : bool :=
  match a with AGetNanoPrice _ _ => true | _ => false end.
Definition is_NewIndex (a : Action) : bool :=
  match a with ANewIndex _ => true | _ => false end.
Definition is_DeterministicKey (a : Action) : bool :=
  match a with ADeterministicKey _ _ _ => true | _ => false end.
Definition is_Save (a : Action) : bool :=
  match a with ASave _ _ => true | _ => false end.
Definition is_StartChecking (a : Action) : bool :=
  match a with AStartChecking _ => true | _ => false end.
Definition is_LoadPayment (a : Action) : bool :=
  match a with ALoadPayment _ _ => true | _ => false end.
Definition is_Subscribe (a : Action) : bool :=
  match a with ASubscribe _ _ => true | _ => false end.
Definition is_Cancel (a : Action) : bool :=
  match a with ACancel _ => true | _ => false end.
Definition is_ConnRead (a : Action) : bool :=
  match a with AConnRead _ _ => true | _ => false end.
Definition is_ConnWrite (a : Action) : bool :=
  match a with AConnWrite _ _ _ => true | _ => false end.

(** What reaches the HTTP client: an error reply or a body. *)
Definition is_response (a : Action) : bool :=
  match a with AHttpError _ _ _ | ARwWrite _ _ _ => true | _ => false end.

(** The calls of one kind, in order. *)
Definition calls (kind : Action -> bool) (t : list Action) : list Action :=
  List.filter kind t.

(** No call of that kind was made. *)
Definition never (kind : Action -> bool) (t : list Action) : Prop :=
  calls kind t = [].

End TraceQueries.

(** ** A concrete deployment

    One instance of the collaborators, small enough to run the handlers by
    computation: decimals are integers, the oracle quotes one currency, the
    store and the oracle can be switched off, and a websocket client sends a
    fixed number of frames before it disconnects. *)

Module Bench.

Record world := {
  next_index : N;
  quote : option Z;          (* the oracle's USD price; [None] when it is down *)
  store_up : bool;
  clock : N;
  stored : list string;       (* accounts that have a payment record *)
  frames : nat;               (* reads that succeed before the client is gone *)
  subscribers : N;
  cancelled : list N;
}.

Definition domain : Domain := {|
  World := world;
  error := string;
  Decimal := Z;
  Raw := Z;
  Time := N;
  ResponseWriter := unit;
  CancelFunc := N;
  OtherEvent := string;
|}.
#[local] Existing Instance domain.

Fixpoint digits (s : string) (acc : Z) : option Z :=
  match s with
  | EmptyString => Some acc
  | String c s' =>
    let n := N_of_ascii c in
    if ((48 <=? n) && (n <=? 57))%N
    then digits s' (10 * acc + Z.of_N (n - 48))
    else None
  end.

Definition parse_decimal (s : string) : Z + string :=
  match s with
  | EmptyString => inr "can't convert to decimal"
  | _ => match digits s 0 with
         | Some z => inl z
         | None => inr "can't convert to decimal"
         end
  end.

Definition parse_token (t : string) : TokenClaims + string :=
  match t with
  | String "t" (String "o" (String "k" (String "." rest))) =>
    inl {| Claims_Account := rest |}
  | _ => inr "token contains an invalid number of segments"
  end.

Definition not_found : string := "payment not found".

Definition blank (account : string) : Payment := {|
  Payment_PublicKey := "";
  Payment_Account := account;
  Payment_Index := 0%N;
  Payment_Amount := 0;
  Payment_AmountInCurrency := 0;
  Payment_Currency := "BCB";
  Payment_State := "";
  Payment_CreatedAt := 0%N;
|}.

Definition collaborators : Collaborators := {|
  config_Seed := "seed";
  errPaymentNotFound := not_found;
  NewFromString := parse_decimal;
  DivRound := fun a b _ => if decide (b = 0) then None else Some (a / b);
  NanoToRaw := fun d => d * 10 ^ 30;
  unicode_ToUpper := fun s => s;
  UTC := fun t => t;
  json_Marshal := fun resp =>
    inl ("{state:" ++ Payment_State (Response_Payment resp)
         ++ ",token:" ++ Response_Token resp ++ "}")%string;
  getNanoPrice := fun c w =>
    (match quote w with
     | Some q => if bool_decide (c = "usd") then inl q else inr "price unavailable"
     | None => inr "price unavailable"
     end, w);
  NewIndex := fun w =>
    (inl (next_index w),
     {| next_index := next_index w + 1; quote := quote w; store_up := store_up w;
        clock := clock w; stored := stored w; frames := frames w;
        subscribers := subscribers w; cancelled := cancelled w |});
  DeterministicKey := fun _ i w =>
    (inl {| Key_Public := "pub"; Key_Account := ("nano_" ++ String (ascii_of_N (48 + i mod 10)) "")%string |}, w);
  NewToken := fun _ account w => (inl ("tok." ++ account)%string, w);
  time_Now := fun w => (clock w, w);
  Save := fun p w =>
    if store_up w
    then (None,
          {| next_index := next_index w; quote := quote w; store_up := store_up w;
             clock := clock w; stored := Payment_Account p :: stored w; frames := frames w;
             subscribers := subscribers w; cancelled := cancelled w |})
    else (Some "store unavailable", w);
  StartChecking := fun _ w => w;
  rw_Write := fun _ b w => ((Z.of_nat (String.length b), None), w);
  ParseToken := fun t w => (parse_token t, w);
  LoadPayment := fun a w =>
    (if bool_decide (a ∈ stored w) then inl (blank a) else inr not_found, w);
  Subscribe := fun _ _ w =>
    (subscribers w,
     {| next_index := next_index w; quote := quote w; store_up := store_up w;
        clock := clock w; stored := stored w; frames := frames w;
        subscribers := subscribers w + 1; cancelled := cancelled w |});
  invoke_cancel := fun c w =>
     {| next_index := next_index w; quote := quote w; store_up := store_up w;
        clock := clock w; stored := stored w; frames := frames w;
        subscribers := subscribers w; cancelled := c :: cancelled w |};
  conn_Read := fun _ _ w =>
    match frames w with
    | O => ((0, Some "EOF"), w)
    | S n =>
      ((1, None),
       {| next_index := next_index w; quote := quote w; store_up := store_up w;
          clock := clock w; stored := stored w; frames := n;
          subscribers := subscribers w; cancelled := cancelled w |})
    end;
  conn_Write := fun _ b w => ((Z.of_nat (String.length b), None), w);
|}.

Definition world0 : world := {|
  next_index := 7; quote := Some 2; store_up := true; clock := 1000;
  stored := ["nano_1"]; frames := 2; subscribers := 0; cancelled := [];
|}.

Definition post (form : list (string * list string)) : Request :=
  {| Method := MethodPost; Form := list_to_map form |}.

Definition get (form : list (string * list string)) : Request :=
  {| Method := "GET"; Form := list_to_map form |}.

#[local] Existing Instance collaborators.

Definition pay (r : Request) (w : world) : Run unit :=
  handlePay tt r w.

Definition verify (r : Request) (w : world) : Run unit :=
  handleVerify tt r w.

Definition connection (r : Request) : Conn :=
  {| conn_id := 1; Conn_Request := r |}.

Definition socket (fuel : nat) (r : Request) (w : world) : Run unit :=
  handleWebsocket fuel (connection r) w.

(** A merchant asks for 10 USD; another for 10 in the ledger's own unit. *)
Definition order : Request :=
  post [("amount", ["10"]); ("currency", ["usd"]); ("state", ["order-1"])].

Definition order_native : Request :=
  post [("amount", ["10"]); ("state", ["order-2"])].

Definition order_eur : Request :=
  post [("amount", ["10"]); ("currency", ["eur"]); ("state", ["order-3"])].

Definition order_garbled : Request :=
  post [("amount", ["ten"]); ("currency", ["usd"])].

Definition order_payment : Payment := {|
  Payment_PublicKey := "pub";
  Payment_Account := "nano_7";
  Payment_Index := 7%N;
  Payment_Amount := 5 * 10 ^ 30;
  Payment_AmountInCurrency := 10;
  Payment_Currency := "USD";
  Payment_State := "order-1";
  Payment_CreatedAt := 1000%N;
|}.

Definition store_down : world := {|
  next_index := 7; quote := Some 2; store_up := false; clock := 1000;
  stored := ["nano_1"]; frames := 2; subscribers := 0; cancelled := [];
|}.

Definition free_quote : world := {|
  next_index := 7; quote := Some 0; store_up := true; clock := 1000;
  stored := ["nano_1"]; frames := 2; subscribers := 0; cancelled := [];
|}.

Definition world1 : world := {|
  next_index := 7; quote := Some 2; store_up := true; clock := 1000;
  stored := ["nano_1"]; frames := 2; subscribers := 1; cancelled := [];
|}.

Definition with_token (t : string) : Request := get [("token", [t])].

End Bench.

(** ** The rest of [http.go]: [handleVersion], [handlePrice], [runServer] *)

Section PriceHandlers.
Context `{D : Domain} `{C : !Collaborators}.

(** What the two small handlers use beyond [Collaborators]: the [Version]
    string and [json.Marshal] at the type
    [map[string]interface{}{"price": price}]. *)
Class PriceCollaborators := {
  Version : string;
  json_Marshal_map : gmap string Decimal -> bytes + error;
}.

Context `{P : !PriceCollaborators}.

Definition handleVersion (w : ResponseWriter) (r : Request) : M unit :=
  rw ← call (rw_Write w (to_bytes Version)) (ARwWrite w (to_bytes Version));
  match rw.2 with
  | Some err => log_Debug [LErr err]
  | None => mret tt
  end.

Definition handlePrice (w : ResponseWriter) (r : Request) : M unit :=
  currency ← FormValue r "currency";
  rp ← call (getNanoPrice currency) (AGetNanoPrice currency);
  match rp with
  | inr err => log_Error [LErr err];; internal_server_error w
  | inl price =>
    match json_Marshal_map {["price" := price]} with
    | inr err => log_Error [LErr err];; internal_server_error w
    | inl b =>
      rw ← call (rw_Write w b) (ARwWrite w b);
      match rw.2 with
      | Some err => log_Debug [LErr err]
      | None => mret tt
      end
    end
  end.

End PriceHandlers.

(** More kinds of trace entries. *)
Section MoreTraceQueries.
Context `{D : Domain}.

Definition is_NewToken (a : Action) : bool :=
  match a with ANewToken _ _ _ => true | _ => false end.
Definition is_ParseToken (a : Action) : bool :=
  match a with AParseToken _ _ => true | _ => false end.

(** A read on the connection that reported no error. *)
Definition is_good_read (conn : Conn) (a : Action) : Prop :=
  exists n : Z, a = AConnRead conn (n, None).

End MoreTraceQueries.

(** ** [runServer] *)

(** The handler functions [runServer] mounts.  The five admin handlers are
    defined outside [http.go]; only their names occur here. *)
Inductive HandlerFunc :=
| HVersion
| HPay
| HPrice
| HVerify
| HWebsocket
| HAdminGetActivePayments
| HAdminGetPayment
| HAdminCheckPayment
| HAdminReceivePending
| HAdminSendToMerchant.

#[global] Instance HandlerFunc_eq_dec : EqDecision HandlerFunc.
Proof. solve_decision. Defined.

(** What is mounted under a pattern: the handler, and whether it sits behind
    [ratelimitMiddleware.Handler]. *)
Record Route := {
  route_handler : HandlerFunc;
  route_rate_limited : bool;
}.

(** [*http.ServeMux], as the table from pattern to what is mounted. *)
Definition ServeMux := gmap string Route.

(** [mux.Handle] and [mux.HandleFunc]: net/http panics on the empty pattern
    and on a pattern that is already registered ([None]). *)
Definition mux_Handle (pattern : string) (h : Route) (mux : gmap string Route)
    : option (gmap string Route) :=
  if decide (pattern = "") then None
  else match mux !! pattern with
       | Some _ => None
       | None => Some (<[pattern := h]> mux)
       end.

(** The fields of the global [config] that [runServer] reads. *)
Record Config := {
  AdminPassword : string;
  ListenAddress : string;
  CertFile : string;
  KeyFile : string;
}.

(** [server.Handler = cors.Default().Handler(mux)] *)
Inductive Handler :=
| CorsDefault (mux : gmap string Route).

(** The two fields of the global [server] that [runServer] sets. *)
Record Server := {
  Addr : string;
  Server_Handler : Handler;
}.

Section RunServer.
Context `{D : Domain}.

(** [net/http]'s listeners and its [ErrServerClosed].  A listener's result is
    Go's [error]: [None] is [nil]. *)
Class ServerCollaborators := {
  ErrServerClosed : error;
  ListenAndServe : Server -> World -> option error * World;
  ListenAndServeTLS : Server -> string -> string -> World -> option error * World;
}.

Context `{S : !ServerCollaborators}.

Inductive ServerAction :=
| AListenAndServe (srv : Server) (res : option error)
| AListenAndServeTLS (srv : Server) (certFile keyFile : string) (res : option error)
| ALogFatal (err : option error).

(** How [runServer] ends: it returns, [log.Fatal] exits the process, or a
    registration panics. *)
Inductive ServerExit :=
| ServerReturned
| ServerFatal
| ServerPanicked.

Record ServerRun := {
  server_exit : ServerExit;
  server_final : World;
  server_trace : list ServerAction;
}.

(** The registrations, in the order [runServer] makes them. *)
Definition register_routes (config : Config) : option (gmap string Route) :=
  mux ← mux_Handle "/version" {| route_handler := HVersion; route_rate_limited := false |} ∅;
  mux ← mux_Handle "/api/pay" {| route_handler := HPay; route_rate_limited := true |} mux;
  mux ← mux_Handle "/api/price" {| route_handler := HPrice; route_rate_limited := true |} mux;
  mux ← mux_Handle "/api/verify" {| route_handler := HVerify; route_rate_limited := false |} mux;
  mux ← mux_Handle "/websocket" {| route_handler := HWebsocket; route_rate_limited := false |} mux;
  if decide (AdminPassword config ≠ "") then
    mux ← mux_Handle "/admin/payments/active"
            {| route_handler := HAdminGetActivePayments; route_rate_limited := false |} mux;
    mux ← mux_Handle "/admin/payment"
            {| route_handler := HAdminGetPayment; route_rate_limited := false |} mux;
    mux ← mux_Handle "/admin/check"
            {| route_handler := HAdminCheckPayment; route_rate_limited := false |} mux;
    mux ← mux_Handle "/admin/receive"
            {| route_handler := HAdminReceivePending; route_rate_limited := false |} mux;
    mux_Handle "/admin/send"
            {| route_handler := HAdminSendToMerchant; route_rate_limited := false |} mux
  else Some mux.

Definition runServer (config : Config) (w : World) : ServerRun :=
  match register_routes config with
  | None => {| server_exit := ServerPanicked; server_final := w; server_trace := [] |}
  | Some mux =>
    let server := {| Addr := ListenAddress config; Server_Handler := CorsDefault mux |} in
    let '(err, w', listened) :=
      if decide (CertFile config ≠ "" ∧ KeyFile config ≠ "") then
        let '(err, w') := ListenAndServeTLS server (CertFile config) (KeyFile config) w in
        (err, w', AListenAndServeTLS server (CertFile config) (KeyFile config) err)
      else
        let '(err, w') := ListenAndServe server w in
        (err, w', AListenAndServe server err)
    in
    if decide (err = Some ErrServerClosed) then
      {| server_exit := ServerReturned; server_final := w'; server_trace := [listened] |}
    else
      {| server_exit := ServerFatal; server_final := w';
         server_trace := [listened; ALogFatal err] |}
  end.

End RunServer.

(** ** The concrete deployment, continued *)

Module ServerBench.

#[local] Existing Instance Bench.domain.
#[local] Existing Instance Bench.collaborators.

Definition price_collaborators : PriceCollaborators := {|
  Version := "v1.3.0";
  json_Marshal_map := fun m =>
    match m !! "price" with
    | Some 0 => inr "json: unsupported value"
    | Some _ => inl "{price:...}"
    | None => inl "{}"
    end;
|}.

(** A server that is shut down in an orderly way when it listens in the
    clear, and whose TLS listener cannot read its key. *)
Definition server_collaborators : ServerCollaborators := {|
  ErrServerClosed := "http: Server closed";
  ListenAndServe := fun _ w => (Some "http: Server closed", w);
  ListenAndServeTLS := fun _ _ _ w => (Some "open key.pem: no such file or directory", w);
|}.

Definition open_config : Config := {|
  AdminPassword := ""; ListenAddress := ":8080"; CertFile := "cert.pem"; KeyFile := "";
|}.

Definition admin_config : Config := {|
  AdminPassword := "s3cret"; ListenAddress := ":8443";
  CertFile := "cert.pem"; KeyFile := "key.pem";
|}.

Definition price (r : Request) (w : Bench.world) : Run unit :=
  handlePrice (P := price_collaborators) tt r w.

Definition oracle_down : Bench.world := {|
  Bench.next_index := 7; Bench.quote := None; Bench.store_up := true; Bench.clock := 1000;
  Bench.stored := ["nano_1"]; Bench.frames := 2; Bench.subscribers := 0;
  Bench.cancelled := [];
|}.

End ServerBench.

(** The deployment with one collaborator broken. *)
Module Faults.

#[local] Existing Instance Bench.domain.

Inductive fault :=
| IndexFault      (* the allocator's transaction fails *)
| KeyFault        (* the node refuses to derive a key *)
| TokenFault      (* the token cannot be signed *)
| WriteFault      (* the client has gone when the body is written *)
| StoreFault.     (* the store fails on lookup, for another reason than a missing record *)

#[global] Instance fault_eq_dec : EqDecision fault.
Proof. solve_decision. Defined.

Definition broken (f : fault) : Collaborators := {|
  config_Seed := config_Seed (Collaborators := Bench.collaborators);
  errPaymentNotFound := errPaymentNotFound (Collaborators := Bench.collaborators);
  NewFromString := NewFromString (Collaborators := Bench.collaborators);
  DivRound := DivRound (Collaborators := Bench.collaborators);
  NanoToRaw := NanoToRaw (Collaborators := Bench.collaborators);
  unicode_ToUpper := unicode_ToUpper (Collaborators := Bench.collaborators);
  UTC := UTC (Collaborators := Bench.collaborators);
  json_Marshal := json_Marshal (Collaborators := Bench.collaborators);
  getNanoPrice := getNanoPrice (Collaborators := Bench.collaborators);
  NewIndex := fun w =>
    if decide (f = IndexFault) then (inr "bucket not found", w)
    else NewIndex (Collaborators := Bench.collaborators) w;
  DeterministicKey := fun seed i w =>
    if decide (f = KeyFault) then (inr "node: connection refused", w)
    else DeterministicKey (Collaborators := Bench.collaborators) seed i w;
  NewToken := fun i a w =>
    if decide (f = TokenFault) then (inr "key is of invalid type", w)
    else NewToken (Collaborators := Bench.collaborators) i a w;
  time_Now := time_Now (Collaborators := Bench.collaborators);
  Save := Save (Collaborators := Bench.collaborators);
  StartChecking := StartChecking (Collaborators := Bench.collaborators);
  rw_Write := fun rw b w =>
    if decide (f = WriteFault) then ((0, Some "broken pipe"), w)
    else rw_Write (Collaborators := Bench.collaborators) rw b w;
  ParseToken := ParseToken (Collaborators := Bench.collaborators);
  LoadPayment := fun a w =>
    if decide (f = StoreFault) then (inr "database not open", w)
    else LoadPayment (Collaborators := Bench.collaborators) a w;
  Subscribe := Subscribe (Collaborators := Bench.collaborators);
  invoke_cancel := invoke_cancel (Collaborators := Bench.collaborators);
  conn_Read := conn_Read (Collaborators := Bench.collaborators);
  conn_Write := conn_Write (Collaborators := Bench.collaborators);
|}.

Definition pay (f : fault) (r : Request) (w : Bench.world) : Run unit :=
  handlePay (C := broken f) tt r w.

Definition verify (f : fault) (r : Request) (w : Bench.world) : Run unit :=
  handleVerify (C := broken f) tt r w.

End Faults.

(** ** Proof tools *)

Lemma StatusText_500 : StatusText StatusInternalServerError = "Internal Server Error".
Proof. reflexivity. Qed.

Lemma StatusText_404 : StatusText StatusNotFound = "Not Found".
Proof. reflexivity. Qed.

Section TraceLemmas.
Context `{D : Domain}.

Lemma filter_calls_disjoint (t : list Action) :
  List.filter is_Subscribe (List.filter is_ConnRead t) = [].
Proof.
  induction t as [|a t IH]; [reflexivity|].
  destruct a; simpl; auto.
Qed.

End TraceLemmas.

Ltac unfold_handlers :=
  unfold handlePay, handlePay_create, handleVerify, handleWebsocket, subscriber,
    internal_server_error, FormValue, http_Error, log_Debug, log_Error,
    mbind, M_bind, mret, M_ret, bind, call, emit, ret, panic.

Ltac simpl_run :=
  cbn -[decide ToUpper form_value StatusText readLoop defer];
  rewrite ?StatusText_500, ?StatusText_404.

(** Follow the handler down every branch: each test on a collaborator's
    answer splits the goal, and the answer is kept as an equation. *)
Ltac explore :=
  unfold_handlers;
  repeat (simpl_run;
          match goal with
          | |- context [decide ?P] => destruct (decide P)
          | |- context [match ?x with _ => _ end] =>
            lazymatch x with
            | context [match _ with _ => _ end] => fail
            | _ => destruct x eqn:?
            end
          end);
  simpl_run.

(** Invert [H : t = pre ++ a :: post] for a trace [t] that is written out:
    one goal per position of [t] where [a] can sit. *)
Ltac split_inv H :=
  lazymatch type of H with
  | [] = ?pre ++ _ :: _ => destruct pre; discriminate H
  | _ :: _ = ?pre ++ _ :: _ =>
    let a := fresh "a" in
    let pre' := fresh "pre" in
    destruct pre as [|a pre']; simpl in H;
    [ simplify_eq
    | let Ha := fresh "Ha" in
      injection H as Ha H; subst a; split_inv H ]
  end.

(** ** The model at work *)

Example ToUpper_usd : ToUpper (fun s => s) "usd" = "USD".
Proof. reflexivity. Qed.

Example ToUpper_mixed : ToUpper (fun s => s) "eUr-1" = "EUR-1".
Proof. reflexivity. Qed.

Example ToUpper_BCB : ToUpper (fun s => s) "BCB" = "BCB".
Proof. reflexivity. Qed.

Section BenchRuns.
Import Bench.
#[local] Existing Instance Bench.domain.
#[local] Existing Instance Bench.collaborators.

Example form_value_first :
  form_value (get [("token", ["a"; "b"])]) "token" = "a" /\
  form_value (get [("token", [])]) "token" = "" /\
  form_value (get []) "token" = "".
Proof. repeat split; vm_compute; reflexivity. Qed.

Example pay_order :
  pay order world0 =
    {| outcome := Returned tt;
       final := {| next_index := 8; quote := Some 2; store_up := true;
                   clock := 1000; stored := ["nano_7"; "nano_1"];
                   frames := 2; subscribers := 0; cancelled := [] |};
       trace := [AFormValue "amount"; AFormValue "currency";
                 AGetNanoPrice "usd" (inl 2); ANewIndex (inl 7%N);
                 ADeterministicKey "seed" 7%N
                   (inl {| Key_Public := "pub"; Key_Account := "nano_7" |});
                 ANewToken 7%N "nano_7" (inl "tok.nano_7");
                 AFormValue "state"; ATimeNow 1000%N;
                 ASave order_payment None;
                 AStartChecking order_payment;
                 ALogDebug [LStr "created new payment: %s";
                            LBytes "{state:order-1,token:tok.nano_7}"];
                 ARwWrite tt "{state:order-1,token:tok.nano_7}" (32, None)] |}.
Proof. vm_compute. reflexivity. Qed.

Example pay_zero_price_panics :
  outcome (pay order free_quote) = Panicked /\
  never is_NewIndex (trace (pay order free_quote)).
Proof. split; vm_compute; reflexivity. Qed.

Example socket_client_leaves :
  socket 5 (with_token "tok.nano_1") world0 =
    {| outcome := Returned tt;
       final := {| next_index := 7; quote := Some 2; store_up := true;
                   clock := 1000; stored := ["nano_1"];
                   frames := 0; subscribers := 1; cancelled := [0%N] |};
       trace := [AFormValue "token";
                 AParseToken "tok.nano_1" (inl {| Claims_Account := "nano_1" |});
                 ASubscribe "nano_1" 0%N;
                 AConnRead (connection (with_token "tok.nano_1")) (1, None);
                 AConnRead (connection (with_token "tok.nano_1")) (1, None);
                 AConnRead (connection (with_token "tok.nano_1")) (0, Some "EOF");
                 ACancel 0%N] |}.
Proof. vm_compute. reflexivity. Qed.

Example socket_client_still_there :
  outcome (socket 2 (with_token "tok.nano_1") world0) = Running /\
  never is_Cancel (trace (socket 2 (with_token "tok.nano_1") world0)).
Proof. split; vm_compute; reflexivity. Qed.

End BenchRuns.

(** ** [handlePay] *)

Section PayProofs.
Context `{D : Domain} `{C : !Collaborators}.

(** C9. A request to the pay endpoint whose method is not POST is answered
    with 405 Method Not Allowed and nothing else happens: the whole run is
    that one reply, so no form value is read, no collaborator is called and
    the world is left as it was. *)
Theorem handlePay_method_not_allowed (w : ResponseWriter) (r : Request) (w0 : World) :
  Method r ≠ MethodPost ->
  handlePay w r w0 =
    {| outcome := Returned tt; final := w0;
       trace := [AHttpError w "POST only" 405] |} /\
  never is_FormValue (trace (handlePay w r w0)) /\
  never is_NewIndex (trace (handlePay w r w0)) /\
  never is_Save (trace (handlePay w r w0)).
Proof.
  intros Hm. unfold handlePay. destruct (decide (Method r ≠ MethodPost)); [|done].
  repeat split.
Qed.

(** C5. A POST whose [amount] form value does not parse as a decimal is
    rejected with 400 Bad Request, "invalid amount": the run reads the form
    value, logs the parse error and replies; there is no price lookup, no
    index allocation, no key derivation and no persistence, and the world
    is untouched.  Whatever the method, a request with such an amount makes
    none of those calls. *)
Theorem handlePay_invalid_amount (w : ResponseWriter) (r : Request) (w0 : World)
    (err : error) :
  NewFromString (form_value r "amount") = inr err ->
  (Method r = MethodPost ->
   handlePay w r w0 =
     {| outcome := Returned tt; final := w0;
        trace := [AFormValue "amount"; ALogDebug [LErr err];
                  AHttpError w "invalid amount" 400] |}) /\
  never is_GetNanoPrice (trace (handlePay w r w0)) /\
  never is_NewIndex (trace (handlePay w r w0)) /\
  never is_DeterministicKey (trace (handlePay w r w0)) /\
  never is_Save (trace (handlePay w r w0)) /\
  never is_StartChecking (trace (handlePay w r w0)) /\
  final (handlePay w r w0) = w0.
Proof.
  intros Hparse. unfold handlePay.
  destruct (decide (Method r ≠ MethodPost)) as [Hm|Hm].
  - split; [intros Hp; contradiction|]. repeat split.
  - unfold_handlers. simpl_run. rewrite Hparse. simpl_run.
    split; [reflexivity|]. repeat split.
Qed.

(** C2. A POST with a well-formed amount and a non-empty currency whose
    price lookup fails is answered with 500 Internal Server Error.  The run
    ends there: [NewIndex] is never called, so no index is consumed, and
    nothing is derived, saved or scheduled. *)
Theorem handlePay_price_lookup_fails (w : ResponseWriter) (r : Request) (w0 w1 : World)
    (amountInCurrency : Decimal) (err : error) :
  Method r = MethodPost ->
  NewFromString (form_value r "amount") = inl amountInCurrency ->
  form_value r "currency" ≠ "" ->
  getNanoPrice (form_value r "currency") w0 = (inr err, w1) ->
  handlePay w r w0 =
    {| outcome := Returned tt; final := w1;
       trace := [AFormValue "amount"; AFormValue "currency";
                 AGetNanoPrice (form_value r "currency") (inr err);
                 ALogError [LErr err];
                 AHttpError w "Internal Server Error" 500] |} /\
  never is_NewIndex (trace (handlePay w r w0)) /\
  never is_DeterministicKey (trace (handlePay w r w0)) /\
  never is_Save (trace (handlePay w r w0)) /\
  never is_StartChecking (trace (handlePay w r w0)).
Proof.
  intros Hm Hparse Hcur Hprice. unfold handlePay.
  destruct (decide (Method r ≠ MethodPost)) as [Hm'|_]; [contradiction|].
  unfold_handlers. simpl_run. rewrite Hparse. simpl_run.
  destruct (decide (form_value r "currency" ≠ "")) as [_|Hc]; [|contradiction].
  rewrite Hprice. simpl_run. repeat split.
Qed.

(** C1. Take any run of [handlePay] that reaches persistence, that is,
    calls [Save] on a payment [p].  Before that call the run has started
    no check and saved nothing.  If [Save] returned without error, the
    very next call is [StartChecking] on the same payment, and it is the
    only one.  If [Save] failed, all that follows is the error log and the
    500 Internal Server Error reply: no check task is started. *)
Theorem handlePay_save_then_check (w : ResponseWriter) (r : Request) (w0 : World)
    (pre post : list Action) (p : Payment) (res : option error) :
  trace (handlePay w r w0) = pre ++ ASave p res :: post ->
  never is_Save pre /\ never is_StartChecking pre /\
  match res with
  | None =>
    exists post', post = AStartChecking p :: post' /\
                  never is_Save post' /\ never is_StartChecking post'
  | Some err =>
    post = [ALogError [LErr err]; AHttpError w "Internal Server Error" 500]
  end.
Proof.
  revert pre post p res. explore; intros pre post q res H; split_inv H.
  all: repeat split.
  all: eexists; repeat split.
Qed.

(** [handlePay] has no loop: every run ends.  It ends in a panic only on
    the division by a zero price, and when it returns it has sent exactly
    one reply. *)
Lemma handlePay_ends (w : ResponseWriter) (r : Request) (w0 : World) :
  outcome (handlePay w r w0) ≠ Running.
Proof. explore; discriminate. Qed.

Lemma handlePay_panic_only_in_DivRound (w : ResponseWriter) (r : Request) (w0 : World) :
  outcome (handlePay w r w0) = Panicked ->
  exists (a price : Decimal) (w1 : World),
    NewFromString (form_value r "amount") = inl a /\
    getNanoPrice (form_value r "currency") w0 = (inl price, w1) /\
    DivRound a price 6 = None.
Proof.
  explore; intros H; try discriminate H.
  eexists _, _, _. split; [reflexivity|]. split; [reflexivity | assumption].
Qed.

Lemma handlePay_one_reply (w : ResponseWriter) (r : Request) (w0 : World) :
  outcome (handlePay w r w0) = Returned tt ->
  length (calls is_response (trace (handlePay w r w0))) = 1%nat.
Proof. explore; intros H; try discriminate H; reflexivity. Qed.

(** No check is started for a payment that was not saved first. *)
Lemma handlePay_check_needs_save (w : ResponseWriter) (r : Request) (w0 : World)
    (q : Payment) :
  In (AStartChecking q) (trace (handlePay w r w0)) ->
  In (ASave q None) (trace (handlePay w r w0)).
Proof.
  explore; intros H; simpl in H; intuition (try discriminate).
  all: simplify_eq; simpl; tauto.
Qed.

(** C4. When a pay request succeeds (the JSON body is written to the
    client), exactly one payment was stored, and in it:
    [AmountInCurrency] is the decimal parsed from the [amount] form value;
    with no currency supplied, [Currency] is ["BCB"] and [Amount] is
    [NanoToRaw] of that decimal, unconverted; with a currency supplied,
    [Currency] is its upper-case form and [Amount] is [NanoToRaw] of the
    decimal divided, rounded to 6 places, by the price the oracle returned
    for it. *)
Theorem handlePay_stored_payment (w : ResponseWriter) (r : Request) (w0 : World)
    (b : bytes) (rw : Z * option error) :
  In (ARwWrite w b rw) (trace (handlePay w r w0)) ->
  exists (p : Payment) (amountInCurrency : Decimal),
    calls is_Save (trace (handlePay w r w0)) = [ASave p None] /\
    NewFromString (form_value r "amount") = inl amountInCurrency /\
    Payment_AmountInCurrency p = amountInCurrency /\
    (form_value r "currency" = "" ->
     Payment_Currency p = "BCB" /\
     Payment_Amount p = NanoToRaw amountInCurrency) /\
    (form_value r "currency" ≠ "" ->
     Payment_Currency p = ToUpper unicode_ToUpper (form_value r "currency") /\
     exists (price : Decimal) (w1 : World) (amount : Decimal),
       getNanoPrice (form_value r "currency") w0 = (inl price, w1) /\
       DivRound amountInCurrency price 6 = Some amount /\
       Payment_Amount p = NanoToRaw amount).
Proof.
  explore; intros H; simpl in H; intuition (try discriminate).
  all: simplify_eq.
  all: eexists _, _; do 3 (split; [reflexivity|]).
  all: split; intros Hc; try tauto.
  - split; [reflexivity|]. eexists _, _, _.
    split; [reflexivity|]. split; [eassumption|reflexivity].
  - split; [reflexivity|]. eexists _, _, _.
    split; [reflexivity|]. split; [eassumption|reflexivity].
Qed.

(** C6. When a pay request succeeds, the payment that was stored has the
    [state] form value of the request as its [State], as it was sent, and
    the body written to the client is the encoding of the response built
    from that same payment, whose [State] is that value too. *)
Theorem handlePay_state_echoed (w : ResponseWriter) (r : Request) (w0 : World)
    (b : bytes) (rw : Z * option error) :
  In (ARwWrite w b rw) (trace (handlePay w r w0)) ->
  exists (p : Payment) (token : string),
    calls is_Save (trace (handlePay w r w0)) = [ASave p None] /\
    Payment_State p = form_value r "state" /\
    json_Marshal (NewResponse p token) = inl b /\
    Payment_State (Response_Payment (NewResponse p token)) = form_value r "state".
Proof.
  explore; intros H; simpl in H; intuition (try discriminate).
  all: simplify_eq.
  all: eexists _, _; split; [reflexivity|]; split; [reflexivity|].
  all: split; [eassumption|reflexivity].
Qed.

End PayProofs.

(** ** [handleVerify] *)

Section VerifyProofs.
Context `{D : Domain} `{C : !Collaborators}.

(** C3. [handleVerify] answers 400 Bad Request when the token is empty and
    when [ParseToken] rejects it, and in both cases the run ends before any
    store lookup: [LoadPayment] is not called.  When the token parses and
    [LoadPayment] reports [errPaymentNotFound] for the account in its
    claims, the answer is 404 Not Found. *)
Theorem handleVerify_rejections (w : ResponseWriter) (r : Request) (w0 : World) :
  let token := form_value r "token" in
  (token = "" ->
   handleVerify w r w0 =
     {| outcome := Returned tt; final := w0;
        trace := [AFormValue "token"; AHttpError w "invalid token" 400] |}) /\
  (forall (err : error) (w1 : World),
     token ≠ "" ->
     ParseToken token w0 = (inr err, w1) ->
     handleVerify w r w0 =
       {| outcome := Returned tt; final := w1;
          trace := [AFormValue "token"; AParseToken token (inr err);
                    AHttpError w "invalid token" 400] |}) /\
  (token = "" \/ (exists err w1, ParseToken token w0 = (inr err, w1)) ->
   never is_LoadPayment (trace (handleVerify w r w0))) /\
  (forall (claims : TokenClaims) (w1 w2 : World),
     token ≠ "" ->
     ParseToken token w0 = (inl claims, w1) ->
     LoadPayment (to_bytes (Claims_Account claims)) w1 = (inr errPaymentNotFound, w2) ->
     handleVerify w r w0 =
       {| outcome := Returned tt; final := w2;
          trace := [AFormValue "token"; AParseToken token (inl claims);
                    ALoadPayment (to_bytes (Claims_Account claims)) (inr errPaymentNotFound);
                    ALogDebug [LStr "token not found:"; LStr token];
                    AHttpError w "Not Found" 404] |}).
Proof.
  intros token. subst token. repeat split.
  - intros He. unfold_handlers. simpl_run.
    destruct (decide (form_value r "token" = "")); [reflexivity|contradiction].
  - intros err w1 Hne Hp. unfold_handlers. simpl_run.
    destruct (decide (form_value r "token" = "")); [contradiction|].
    rewrite Hp. reflexivity.
  - intros H. unfold_handlers. simpl_run.
    destruct (decide (form_value r "token" = "")) as [|Hne]; [reflexivity|].
    destruct H as [He|(err & w1 & Hp)]; [contradiction|].
    rewrite Hp. reflexivity.
  - intros claims w1 w2 Hne Hp Hl. unfold_handlers. simpl_run.
    destruct (decide (form_value r "token" = "")); [contradiction|].
    rewrite Hp. simpl_run. rewrite Hl. simpl_run.
    destruct (decide (errPaymentNotFound = errPaymentNotFound)); [|contradiction].
    reflexivity.
Qed.

End VerifyProofs.

(** ** [handleWebsocket] *)

Section WebsocketProofs.
Context `{D : Domain} `{C : !Collaborators}.

Lemma readLoop_reads_only (fuel : nat) (conn : Conn) (w : World) :
  calls is_ConnRead (trace (readLoop fuel conn w)) = trace (readLoop fuel conn w) /\
  outcome (readLoop fuel conn w) ≠ Panicked.
Proof.
  revert w. induction fuel as [|fuel IH]; intros w; [split; [reflexivity|discriminate]|].
  cbn -[readBufferSize]. unfold mbind, M_bind, bind, call.
  destruct (conn_Read conn readBufferSize w) as [[n [err|]] w'] eqn:Hrd; cbn.
  - split; [reflexivity|discriminate].
  - specialize (IH w'). destruct (readLoop fuel conn w') as [o wf t].
    cbn in *. destruct IH as [IH1 IH2]. split; [f_equal; exact IH1 | exact IH2].
Qed.

Lemma readLoop_running (fuel : nat) (conn : Conn) (w : World) :
  outcome (readLoop fuel conn w) = Running ->
  length (trace (readLoop fuel conn w)) = fuel.
Proof.
  revert w. induction fuel as [|fuel IH]; intros w; [reflexivity|].
  cbn -[readBufferSize]. unfold mbind, M_bind, bind, call.
  destruct (conn_Read conn readBufferSize w) as [[n [err|]] w'] eqn:Hrd; cbn.
  - discriminate.
  - specialize (IH w'). destruct (readLoop fuel conn w') as [o wf t].
    cbn in *. intros Ho. f_equal. exact (IH Ho).
Qed.

(** With more fuel than the client has frames, the loop is seen to end. *)
Lemma readLoop_returns (n fuel : nat) (conn : Conn) (w : World) :
  disconnects_after n conn w = true ->
  (n < fuel)%nat ->
  outcome (readLoop fuel conn w) = Returned tt /\
  length (trace (readLoop fuel conn w)) = S n.
Proof.
  revert n w. induction fuel as [|fuel IH]; intros n w Hd Hlt; [lia|].
  cbn -[readBufferSize]. unfold mbind, M_bind, bind, call.
  destruct n as [|n]; cbn -[readBufferSize] in Hd;
    destruct (conn_Read conn readBufferSize w) as [[k [err|]] w'] eqn:Hrd;
    cbn in *; try discriminate.
  - split; reflexivity.
  - destruct (IH n w' Hd ltac:(lia)) as [Ho Hl].
    destruct (readLoop fuel conn w') as [o wf t]. cbn in *.
    split; [exact Ho | f_equal; exact Hl].
Qed.

(** C8. The closure registered on the event bus panics exactly when the
    event it is handed is not a [PaymentVerified] value: the type assertion
    is the first thing it does, so nothing has been written by then.  On a
    [PaymentVerified] value it returns. *)
Theorem subscriber_type_assertion (conn : Conn) (token : string) (e : Event) (w0 : World) :
  (outcome (subscriber conn token e w0) = Panicked <->
   forall pv : PaymentVerified, e ≠ EvPaymentVerified pv) /\
  (outcome (subscriber conn token e w0) = Panicked ->
   trace (subscriber conn token e w0) = [] /\ final (subscriber conn token e w0) = w0) /\
  (forall pv : PaymentVerified,
     e = EvPaymentVerified pv -> outcome (subscriber conn token e w0) = Returned tt).
Proof.
  unfold_handlers. destruct e as [|pv|o]; simpl_run.
  - repeat split; try discriminate; auto.
  - destruct (json_Marshal (NewResponse (pv_Payment pv) token)) as [b|err]; simpl_run.
    + destruct (conn_Write conn b w0) as [rw w1]. simpl_run.
      repeat split; try discriminate; auto.
      intros H. exfalso. exact (H pv eq_refl).
    + repeat split; try discriminate; auto.
      intros H. exfalso. exact (H pv eq_refl).
  - repeat split; try discriminate; auto.
Qed.

(** C10. When the [token] form value of the request that opened the
    connection is empty, or [ParseToken] rejects it, [handleWebsocket]
    returns at once, however long it is observed: nothing is subscribed on
    the event bus, and the connection is neither read nor written. *)
Theorem handleWebsocket_bad_token (fuel : nat) (conn : Conn) (w0 : World) :
  let token := form_value (Conn_Request conn) "token" in
  (token = "" ->
   handleWebsocket fuel conn w0 =
     {| outcome := Returned tt; final := w0; trace := [AFormValue "token"] |}) /\
  (forall (err : error) (w1 : World),
     token ≠ "" ->
     ParseToken token w0 = (inr err, w1) ->
     handleWebsocket fuel conn w0 =
       {| outcome := Returned tt; final := w1;
          trace := [AFormValue "token"; AParseToken token (inr err)] |}) /\
  (token = "" \/ (exists err w1, ParseToken token w0 = (inr err, w1)) ->
   never is_Subscribe (trace (handleWebsocket fuel conn w0)) /\
   never is_ConnWrite (trace (handleWebsocket fuel conn w0)) /\
   never is_ConnRead (trace (handleWebsocket fuel conn w0))).
Proof.
  intros token. subst token. repeat split.
  - intros He. unfold_handlers. simpl_run.
    destruct (decide (form_value (Conn_Request conn) "token" = "")); [reflexivity|contradiction].
  - intros err w1 Hne Hp. unfold_handlers. simpl_run.
    destruct (decide (form_value (Conn_Request conn) "token" = "")); [contradiction|].
    rewrite Hp. reflexivity.
  - revert H. unfold_handlers. simpl_run. intros H.
    destruct (decide (form_value (Conn_Request conn) "token" = "")) as [|Hne]; [reflexivity|].
    destruct H as [He|(err & w1 & Hp)]; [contradiction|]. rewrite Hp. reflexivity.
  - revert H. unfold_handlers. simpl_run. intros H.
    destruct (decide (form_value (Conn_Request conn) "token" = "")) as [|Hne]; [reflexivity|].
    destruct H as [He|(err & w1 & Hp)]; [contradiction|]. rewrite Hp. reflexivity.
  - revert H. unfold_handlers. simpl_run. intros H.
    destruct (decide (form_value (Conn_Request conn) "token" = "")) as [|Hne]; [reflexivity|].
    destruct H as [He|(err & w1 & Hp)]; [contradiction|]. rewrite Hp. reflexivity.
Qed.

(** C7. A connection whose token parses registers exactly one
    subscription, for the account in the token's claims.  Whenever the
    handler has returned, the last thing it did was to invoke the cancel
    function that [Subscribe] gave it, once; between the subscription and
    the cancellation it only read from the connection.  While it is still
    reading it has not cancelled.  It does not panic.  And it does return
    once the client disconnects: if a read fails after [n] frames, every
    observation longer than [n] reads sees the handler return. *)
Theorem handleWebsocket_subscription_released (fuel : nat) (conn : Conn)
    (w0 w1 w2 : World) (claims : TokenClaims) (cancel : CancelFunc) :
  let token := form_value (Conn_Request conn) "token" in
  let account := to_Account (Claims_Account claims) in
  let opening := [AFormValue "token"; AParseToken token (inl claims);
                  ASubscribe account cancel] in
  token ≠ "" ->
  ParseToken token w0 = (inl claims, w1) ->
  Subscribe account (subscriber conn token) w1 = (cancel, w2) ->
  calls is_Subscribe (trace (handleWebsocket fuel conn w0)) = [ASubscribe account cancel] /\
  (exists reads : list Action,
     calls is_ConnRead reads = reads /\
     match outcome (handleWebsocket fuel conn w0) with
     | Returned _ =>
       trace (handleWebsocket fuel conn w0) = opening ++ reads ++ [ACancel cancel]
     | Running =>
       trace (handleWebsocket fuel conn w0) = opening ++ reads /\ length reads = fuel
     | Panicked => False
     end) /\
  (forall n : nat,
     disconnects_after n conn w2 = true -> (n < fuel)%nat ->
     outcome (handleWebsocket fuel conn w0) = Returned tt).
Proof.
  intros token account opening Hne Hp Hs. subst token account opening.
  unfold handleWebsocket, FormValue, mbind, M_bind, mret, M_ret, bind, call, emit, ret.
  simpl_run.
  destruct (decide (form_value (Conn_Request conn) "token" = "")); [contradiction|].
  rewrite Hp. simpl_run. rewrite Hs. simpl_run. unfold defer.
  pose proof (readLoop_reads_only fuel conn w2) as [Hreads Hnp].
  pose proof (readLoop_running fuel conn w2) as Hrun.
  pose proof (fun n => readLoop_returns n fuel conn w2) as Hret.
  destruct (readLoop fuel conn w2) as [[[]| |] wf reads]; cbn in *.
  - split; [|split].
    + unfold calls in *. rewrite List.filter_app.
      rewrite <- Hreads, filter_calls_disjoint; reflexivity.
    + exists reads. split; [exact Hreads|reflexivity].
    + intros; reflexivity.
  - contradiction.
  - split; [|split].
    + unfold calls in *. rewrite <- Hreads, filter_calls_disjoint; reflexivity.
    + exists reads. split; [exact Hreads|]. split; [reflexivity|auto].
    + intros k Hd Hlt. destruct (Hret k Hd Hlt) as [Ho _]. discriminate.
Qed.

End WebsocketProofs.

(** ** The theorems at work on the concrete deployment *)

Section Witnesses.
Import Bench.
#[local] Existing Instance Bench.domain.
#[local] Existing Instance Bench.collaborators.

Lemma handlePay_method_not_allowed_witness :
  Method (get [("amount", ["10"])]) ≠ MethodPost /\
  pay (get [("amount", ["10"])]) world0 =
    {| outcome := Returned tt; final := world0;
       trace := [AHttpError tt "POST only" 405] |}.
Proof.
  assert (H : Method (get [("amount", ["10"])]) ≠ MethodPost) by discriminate.
  split; [exact H|].
  exact (proj1 (handlePay_method_not_allowed (D:=domain) (C:=collaborators)
                  tt (get [("amount", ["10"])]) world0 H)).
Defined.

Lemma handlePay_invalid_amount_witness :
  NewFromString (form_value order_garbled "amount") = inr "can't convert to decimal" /\
  pay order_garbled world0 =
    {| outcome := Returned tt; final := world0;
       trace := [AFormValue "amount"; ALogDebug [LErr "can't convert to decimal"];
                 AHttpError tt "invalid amount" 400] |} /\
  never is_NewIndex (trace (pay order_garbled world0)).
Proof.
  assert (H : NewFromString (form_value order_garbled "amount")
              = inr "can't convert to decimal") by reflexivity.
  destruct (handlePay_invalid_amount (D:=domain) (C:=collaborators) tt order_garbled world0 _ H)
    as (Hrun & _ & Hidx & _).
  split; [exact H|]. split; [exact (Hrun eq_refl) | exact Hidx].
Defined.

Lemma handlePay_price_lookup_fails_witness :
  getNanoPrice (form_value order_eur "currency") world0 = (inr "price unavailable", world0) /\
  pay order_eur world0 =
    {| outcome := Returned tt; final := world0;
       trace := [AFormValue "amount"; AFormValue "currency";
                 AGetNanoPrice "eur" (inr "price unavailable");
                 ALogError [LErr "price unavailable"];
                 AHttpError tt "Internal Server Error" 500] |} /\
  never is_NewIndex (trace (pay order_eur world0)).
Proof.
  assert (Hm : Method order_eur = MethodPost) by reflexivity.
  assert (Ha : NewFromString (form_value order_eur "amount") = inl 10) by reflexivity.
  assert (Hc : form_value order_eur "currency" ≠ "") by (vm_compute; discriminate).
  assert (Hp : getNanoPrice (form_value order_eur "currency") world0
               = (inr "price unavailable", world0)) by reflexivity.
  destruct (handlePay_price_lookup_fails (D:=domain) (C:=collaborators)
              tt order_eur world0 world0 10 _ Hm Ha Hc Hp)
    as (Hrun & Hidx & _).
  split; [exact Hp|]. split; [exact Hrun | exact Hidx].
Defined.

Lemma handlePay_save_then_check_witness :
  (trace (pay order world0) =
     take 8 (trace (pay order world0)) ++
     ASave order_payment None :: drop 9 (trace (pay order world0)) /\
   never is_StartChecking (take 8 (trace (pay order world0))) /\
   exists post', drop 9 (trace (pay order world0)) = AStartChecking order_payment :: post' /\
                 never is_Save post' /\ never is_StartChecking post') /\
  (trace (pay order store_down) =
     take 8 (trace (pay order store_down)) ++
     ASave order_payment (Some "store unavailable") ::
     drop 9 (trace (pay order store_down)) /\
   drop 9 (trace (pay order store_down)) =
     [ALogError [LErr "store unavailable"]; AHttpError tt "Internal Server Error" 500]).
Proof.
  assert (H1 : trace (pay order world0) =
               take 8 (trace (pay order world0)) ++
               ASave order_payment None :: drop 9 (trace (pay order world0)))
    by (vm_compute; reflexivity).
  assert (H2 : trace (pay order store_down) =
               take 8 (trace (pay order store_down)) ++
               ASave order_payment (Some "store unavailable") ::
               drop 9 (trace (pay order store_down)))
    by (vm_compute; reflexivity).
  destruct (handlePay_save_then_check (D:=domain) (C:=collaborators)
              tt order world0 _ _ _ _ H1) as (_ & Hpre & Hpost).
  destruct (handlePay_save_then_check (D:=domain) (C:=collaborators)
              tt order store_down _ _ _ _ H2) as (_ & _ & Hfail).
  split; [split; [exact H1 | split; [exact Hpre | exact Hpost]] | split; [exact H2 | exact Hfail]].
Defined.

Lemma handlePay_stored_payment_witness :
  In (ARwWrite tt "{state:order-1,token:tok.nano_7}" (32, None)) (trace (pay order world0)) /\
  exists p : Payment,
    calls is_Save (trace (pay order world0)) = [ASave p None] /\
    Payment_AmountInCurrency p = 10 /\
    Payment_Currency p = "USD" /\
    Payment_Amount p = 5 * 10 ^ 30.
Proof.
  assert (H : In (ARwWrite tt "{state:order-1,token:tok.nano_7}" (32, None))
                 (trace (pay order world0)))
    by (vm_compute; do 11 right; left; reflexivity).
  split; [exact H|].
  destruct (handlePay_stored_payment (D:=domain) (C:=collaborators)
              tt order world0 _ _ H) as (p & a & Hsave & Ha & Hpa & _ & Hcur).
  exists p. split; [exact Hsave|].
  assert (Hp : order_payment = p) by (vm_compute in Hsave; injection Hsave as Hp; exact Hp).
  rewrite <- Hp. repeat split.
Defined.

Lemma handlePay_state_echoed_witness :
  In (ARwWrite tt "{state:order-2,token:tok.nano_7}" (32, None))
     (trace (pay order_native world0)) /\
  exists (p : Payment) (token : string),
    calls is_Save (trace (pay order_native world0)) = [ASave p None] /\
    Payment_State p = "order-2" /\
    json_Marshal (NewResponse p token) = inl "{state:order-2,token:tok.nano_7}".
Proof.
  assert (H : In (ARwWrite tt "{state:order-2,token:tok.nano_7}" (32, None))
                 (trace (pay order_native world0)))
    by (vm_compute; do 10 right; left; reflexivity).
  split; [exact H|].
  destruct (handlePay_state_echoed (D:=domain) (C:=collaborators)
              tt order_native world0 _ _ H) as (p & token & Hsave & Hst & Hm & _).
  exists p, token. split; [exact Hsave|]. split; [exact Hst | exact Hm].
Defined.

Lemma handleVerify_rejections_witness :
  verify (with_token "") world0 =
    {| outcome := Returned tt; final := world0;
       trace := [AFormValue "token"; AHttpError tt "invalid token" 400] |} /\
  verify (with_token "forged") world0 =
    {| outcome := Returned tt; final := world0;
       trace := [AFormValue "token";
                 AParseToken "forged" (inr "token contains an invalid number of segments");
                 AHttpError tt "invalid token" 400] |} /\
  never is_LoadPayment (trace (verify (with_token "forged") world0)) /\
  verify (with_token "tok.nano_2") world0 =
    {| outcome := Returned tt; final := world0;
       trace := [AFormValue "token";
                 AParseToken "tok.nano_2" (inl {| Claims_Account := "nano_2" |});
                 ALoadPayment "nano_2" (inr not_found);
                 ALogDebug [LStr "token not found:"; LStr "tok.nano_2"];
                 AHttpError tt "Not Found" 404] |}.
Proof.
  destruct (handleVerify_rejections (D:=domain) (C:=collaborators)
              tt (with_token "") world0) as (Hempty & _).
  destruct (handleVerify_rejections (D:=domain) (C:=collaborators)
              tt (with_token "forged") world0) as (_ & Hbad & Hnone & _).
  destruct (handleVerify_rejections (D:=domain) (C:=collaborators)
              tt (with_token "tok.nano_2") world0) as (_ & _ & _ & Hmiss).
  split; [exact (Hempty eq_refl)|].
  split; [apply Hbad; [vm_compute; discriminate | reflexivity]|].
  split; [apply Hnone; right; eexists _, _; reflexivity|].
  apply (Hmiss {| Claims_Account := "nano_2" |} world0 world0);
    [vm_compute; discriminate | reflexivity | reflexivity].
Defined.

Lemma subscriber_type_assertion_witness :
  outcome (subscriber (connection (with_token "tok.nano_1")) "tok.nano_1"
                      (@EvOther domain "PaymentExpired") world0) = Panicked /\
  outcome (subscriber (connection (with_token "tok.nano_1")) "tok.nano_1"
                      (@EvNil domain) world0) = Panicked /\
  outcome (subscriber (connection (with_token "tok.nano_1")) "tok.nano_1"
                      (EvPaymentVerified {| pv_Payment := blank "nano_1" |}) world0)
    = Returned tt.
Proof.
  destruct (subscriber_type_assertion (D:=domain) (C:=collaborators)
              (connection (with_token "tok.nano_1")) "tok.nano_1"
              (@EvOther domain "PaymentExpired") world0) as ((_ & Hother) & _).
  destruct (subscriber_type_assertion (D:=domain) (C:=collaborators)
              (connection (with_token "tok.nano_1")) "tok.nano_1"
              (@EvNil domain) world0) as ((_ & Hnil) & _).
  destruct (subscriber_type_assertion (D:=domain) (C:=collaborators)
              (connection (with_token "tok.nano_1")) "tok.nano_1"
              (EvPaymentVerified {| pv_Payment := blank "nano_1" |}) world0)
    as (_ & _ & Hpv).
  split; [apply Hother; discriminate|].
  split; [apply Hnil; discriminate|].
  exact (Hpv _ eq_refl).
Defined.

Lemma handleWebsocket_bad_token_witness :
  socket 5 (with_token "") world0 =
    {| outcome := Returned tt; final := world0; trace := [AFormValue "token"] |} /\
  socket 5 (with_token "forged") world0 =
    {| outcome := Returned tt; final := world0;
       trace := [AFormValue "token";
                 AParseToken "forged" (inr "token contains an invalid number of segments")] |} /\
  never is_Subscribe (trace (socket 5 (with_token "forged") world0)) /\
  never is_ConnWrite (trace (socket 5 (with_token "forged") world0)).
Proof.
  destruct (handleWebsocket_bad_token (D:=domain) (C:=collaborators)
              5 (connection (with_token "")) world0) as (Hempty & _).
  destruct (handleWebsocket_bad_token (D:=domain) (C:=collaborators)
              5 (connection (with_token "forged")) world0) as (_ & Hbad & Hnone).
  split; [exact (Hempty eq_refl)|].
  split; [apply Hbad; [vm_compute; discriminate | reflexivity]|].
  destruct Hnone as (Hs & Hw & _); [right; eexists _, _; reflexivity|].
  split; [exact Hs | exact Hw].
Defined.

Lemma handleWebsocket_subscription_released_witness :
  calls is_Subscribe (trace (socket 5 (with_token "tok.nano_1") world0))
    = [ASubscribe "nano_1" 0%N] /\
  outcome (socket 5 (with_token "tok.nano_1") world0) = Returned tt /\
  last (trace (socket 5 (with_token "tok.nano_1") world0)) = Some (ACancel 0%N).
Proof.
  assert (Hne : form_value (Conn_Request (connection (with_token "tok.nano_1"))) "token" ≠ "")
    by (vm_compute; discriminate).
  destruct (handleWebsocket_subscription_released (D:=domain) (C:=collaborators)
              5 (connection (with_token "tok.nano_1")) world0 world0 world1
              {| Claims_Account := "nano_1" |} 0%N Hne eq_refl eq_refl)
    as (Hsub & _ & Hret).
  split; [exact Hsub|]. split; [apply (Hret 2%nat); [reflexivity | lia]|].
  vm_compute. reflexivity.
Defined.

End Witnesses.

(** ** Further properties of [handlePay] *)

(** Split [H : In a t], for a trace [t] that is written out, into the
    positions where [a] fits. *)
Ltac pick_entry H :=
  simpl in H;
  repeat match type of H with
         | _ \/ _ => destruct H as [H|H]
         | False => destruct H
         end;
  try discriminate H; simplify_eq.

(** Find an entry in a trace that is written out. *)
Ltac find_entry := simpl; repeat (first [left; reflexivity | right]).

Section PayFailures.
Context `{D : Domain} `{C : !Collaborators}.

(** X1. When the index allocation, the key derivation or the token issue fails,
    the request is answered with 500 Internal Server Error, the error is
    logged, and the run stops short of the store: nothing is saved and no
    check is started. *)
Theorem handlePay_failure_before_save (w : ResponseWriter) (r : Request) (w0 : World)
    (err : error) :
  (In (ANewIndex (inr err)) (trace (handlePay w r w0)) \/
   (exists seed index, In (ADeterministicKey seed index (inr err)) (trace (handlePay w r w0))) \/
   (exists index account, In (ANewToken index account (inr err)) (trace (handlePay w r w0)))) ->
  outcome (handlePay w r w0) = Returned tt /\
  calls is_response (trace (handlePay w r w0)) = [AHttpError w "Internal Server Error" 500] /\
  In (ALogError [LErr err]) (trace (handlePay w r w0)) /\
  never is_Save (trace (handlePay w r w0)) /\
  never is_StartChecking (trace (handlePay w r w0)).
Proof.
  explore; intros [H|[(seed & i0 & H)|(i0 & a0 & H)]]; pick_entry H.
  all: repeat split; simpl; tauto.
Qed.

(** X2. An index is spent for good when a later step fails: if the key
    derivation, the token issue or [Save] fails, [NewIndex] has handed out
    an index, exactly one, and no payment is stored under it. *)
Theorem handlePay_index_spent (w : ResponseWriter) (r : Request) (w0 : World)
    (err : error) :
  ((exists seed index, In (ADeterministicKey seed index (inr err)) (trace (handlePay w r w0))) \/
   (exists index account, In (ANewToken index account (inr err)) (trace (handlePay w r w0))) \/
   (exists p, In (ASave p (Some err)) (trace (handlePay w r w0)))) ->
  exists index : Index,
    calls is_NewIndex (trace (handlePay w r w0)) = [ANewIndex (inl index)] /\
    forall p : Payment, ~ In (ASave p None) (trace (handlePay w r w0)).
Proof.
  explore; intros [(seed & i0 & H)|[(i0 & a0 & H)|(p0 & H)]]; pick_entry H.
  all: eexists; split; [reflexivity|].
  all: intros q Hq; pick_entry Hq.
Qed.

(** X3. Once the check of a payment has been started, the payment is in the
    store and a token was issued for its index and account.  The reply is
    the encoded response; if the encoding fails the client is told 500
    although the payment exists and is being watched. *)
Theorem handlePay_reply_after_check (w : ResponseWriter) (r : Request) (w0 : World)
    (p : Payment) :
  In (AStartChecking p) (trace (handlePay w r w0)) ->
  In (ASave p None) (trace (handlePay w r w0)) /\
  exists token : string,
    In (ANewToken (Payment_Index p) (Payment_Account p) (inl token))
       (trace (handlePay w r w0)) /\
    match json_Marshal (NewResponse p token) with
    | inl b =>
      exists rw, calls is_response (trace (handlePay w r w0)) = [ARwWrite w b rw]
    | inr err =>
      calls is_response (trace (handlePay w r w0)) = [AHttpError w "Internal Server Error" 500] /\
      In (ALogError [LErr err]) (trace (handlePay w r w0))
    end.
Proof.
  explore; intros H; pick_entry H.
  all: split; [simpl; tauto|].
  all: eexists; split; [simpl; tauto|].
  all: match goal with
       | E : json_Marshal _ = _ |- _ => simpl; rewrite E
       end.
  all: try (eexists; reflexivity).
  all: split; [reflexivity | simpl; tauto].
Qed.

(** X4. A failed write of the body is not an error of the request: it is logged
    at debug level as the last thing the handler does, the handler returns,
    and the payment stays saved with its check running. *)
Theorem handlePay_write_error (w : ResponseWriter) (r : Request) (w0 : World)
    (b : bytes) (n : Z) (err : error) :
  In (ARwWrite w b (n, Some err)) (trace (handlePay w r w0)) ->
  outcome (handlePay w r w0) = Returned tt /\
  last (trace (handlePay w r w0)) = Some (ALogDebug [LErr err]) /\
  never (fun a => match a with AHttpError _ _ _ => true | _ => false end)
        (trace (handlePay w r w0)) /\
  exists p : Payment,
    In (ASave p None) (trace (handlePay w r w0)) /\
    In (AStartChecking p) (trace (handlePay w r w0)).
Proof.
  explore; intros H; pick_entry H.
  all: cbn [snd] in *; simplify_eq.
  all: do 3 (split; [reflexivity|]).
  all: eexists; split; find_entry.
Qed.


(** X6. When [DivRound] panics, which shopspring/decimal does on a zero
    divisor, that is on a price of zero, the handler is aborted right after
    the lookup: no index has been allocated and no reply has been sent. *)
Theorem handlePay_zero_price (w : ResponseWriter) (r : Request) (w0 w1 : World)
    (amountInCurrency price : Decimal) :
  Method r = MethodPost ->
  NewFromString (form_value r "amount") = inl amountInCurrency ->
  form_value r "currency" ≠ "" ->
  getNanoPrice (form_value r "currency") w0 = (inl price, w1) ->
  DivRound amountInCurrency price 6 = None ->
  handlePay w r w0 =
    {| outcome := Panicked; final := w1;
       trace := [AFormValue "amount"; AFormValue "currency";
                 AGetNanoPrice (form_value r "currency") (inl price)] |}.
Proof.
  intros Hm Hparse Hcur Hprice Hdiv. unfold handlePay.
  destruct (decide (Method r ≠ MethodPost)) as [Hm'|_]; [contradiction|].
  unfold_handlers. simpl_run. rewrite Hparse. simpl_run.
  destruct (decide (form_value r "currency" ≠ "")) as [_|Hc]; [|contradiction].
  rewrite Hprice. simpl_run. rewrite Hdiv. reflexivity.
Qed.

(** X7. One request makes at most one price lookup, allocates at most one
    index, derives at most one key, and saves and starts checking at most
    one payment. *)
Theorem handlePay_at_most_once (w : ResponseWriter) (r : Request) (w0 : World) :
  (length (calls is_GetNanoPrice (trace (handlePay w r w0))) <= 1)%nat /\
  (length (calls is_NewIndex (trace (handlePay w r w0))) <= 1)%nat /\
  (length (calls is_DeterministicKey (trace (handlePay w r w0))) <= 1)%nat /\
  (length (calls is_NewToken (trace (handlePay w r w0))) <= 1)%nat /\
  (length (calls is_Save (trace (handlePay w r w0))) <= 1)%nat /\
  (length (calls is_StartChecking (trace (handlePay w r w0))) <= 1)%nat.
Proof. explore; repeat split; simpl; lia. Qed.

(** X8. Where a stored payment comes from: its index is the one [NewIndex]
    returned, its account and public key are those of the key derived from
    [config.Seed] and that index, the token was issued for that index and
    account, and its creation time is the clock reading in UTC. *)
Theorem handlePay_payment_provenance (w : ResponseWriter) (r : Request) (w0 : World)
    (p : Payment) (res : option error) :
  In (ASave p res) (trace (handlePay w r w0)) ->
  exists (key : Key) (token : string) (now : Time),
    In (ANewIndex (inl (Payment_Index p))) (trace (handlePay w r w0)) /\
    In (ADeterministicKey config_Seed (Payment_Index p) (inl key)) (trace (handlePay w r w0)) /\
    Payment_Account p = Key_Account key /\
    Payment_PublicKey p = Key_Public key /\
    In (ANewToken (Payment_Index p) (Payment_Account p) (inl token)) (trace (handlePay w r w0)) /\
    In (ATimeNow now) (trace (handlePay w r w0)) /\
    Payment_CreatedAt p = UTC now.
Proof.
  explore; intros H; pick_entry H.
  all: eexists _, _, _.
  all: split; [find_entry|]; split; [find_entry|]; do 2 (split; [reflexivity|]).
  all: split; [find_entry|]; split; [find_entry | reflexivity].
Qed.

(** X9. A request without a currency never asks the oracle for a price. *)
Theorem handlePay_native_skips_oracle (w : ResponseWriter) (r : Request) (w0 : World) :
  form_value r "currency" = "" ->
  never is_GetNanoPrice (trace (handlePay w r w0)) /\
  outcome (handlePay w r w0) = Returned tt.
Proof.
  intros Hc. explore; try contradiction; split; reflexivity.
Qed.

End PayFailures.

(** ** Further properties of [handleVerify] *)

Section VerifyMore.
Context `{D : Domain} `{C : !Collaborators}.

(** X10. [handleVerify] only reads.  Every run returns after exactly one reply
    and at most one store lookup; it never allocates an index, asks for a
    price, saves a payment or starts a check. *)
Theorem handleVerify_read_only (w : ResponseWriter) (r : Request) (w0 : World) :
  outcome (handleVerify w r w0) = Returned tt /\
  length (calls is_response (trace (handleVerify w r w0))) = 1%nat /\
  (length (calls is_LoadPayment (trace (handleVerify w r w0))) <= 1)%nat /\
  never is_NewIndex (trace (handleVerify w r w0)) /\
  never is_GetNanoPrice (trace (handleVerify w r w0)) /\
  never is_Save (trace (handleVerify w r w0)) /\
  never is_StartChecking (trace (handleVerify w r w0)).
Proof. explore; repeat split; simpl; lia. Qed.

(** X11. When the payment is found, the reply is the encoding of the response
    built from the stored payment and the token the client sent; a failed
    write is only logged.  If the encoding fails the reply is 500. *)
Theorem handleVerify_found (w : ResponseWriter) (r : Request) (w0 w1 w2 : World)
    (claims : TokenClaims) (payment : Payment) :
  form_value r "token" ≠ "" ->
  ParseToken (form_value r "token") w0 = (inl claims, w1) ->
  LoadPayment (to_bytes (Claims_Account claims)) w1 = (inl payment, w2) ->
  match json_Marshal (NewResponse payment (form_value r "token")) with
  | inl b =>
    trace (handleVerify w r w0) =
      [AFormValue "token"; AParseToken (form_value r "token") (inl claims);
       ALoadPayment (to_bytes (Claims_Account claims)) (inl payment);
       ARwWrite w b (rw_Write w b w2).1] ++
      match (rw_Write w b w2).1.2 with
      | Some err => [ALogDebug [LErr err]]
      | None => []
      end
  | inr err =>
    handleVerify w r w0 =
      {| outcome := Returned tt; final := w2;
         trace := [AFormValue "token"; AParseToken (form_value r "token") (inl claims);
                   ALoadPayment (to_bytes (Claims_Account claims)) (inl payment);
                   ALogError [LErr err];
                   AHttpError w "Internal Server Error" 500] |}
  end.
Proof.
  intros Hne Hp Hl. unfold_handlers. simpl_run.
  destruct (decide (form_value r "token" = "")); [contradiction|].
  rewrite Hp. simpl_run. rewrite Hl. simpl_run.
  destruct (json_Marshal (NewResponse payment (form_value r "token"))) as [b|err]; simpl_run.
  - destruct (rw_Write w b w2) as [[k [e|]] w3]; reflexivity.
  - reflexivity.
Qed.

(** X12. A store failure other than [errPaymentNotFound] is an internal error:
    it is logged and answered with 500, not with 404. *)
Theorem handleVerify_store_failure (w : ResponseWriter) (r : Request) (w0 w1 w2 : World)
    (claims : TokenClaims) (err : error) :
  form_value r "token" ≠ "" ->
  ParseToken (form_value r "token") w0 = (inl claims, w1) ->
  LoadPayment (to_bytes (Claims_Account claims)) w1 = (inr err, w2) ->
  err ≠ errPaymentNotFound ->
  handleVerify w r w0 =
    {| outcome := Returned tt; final := w2;
       trace := [AFormValue "token"; AParseToken (form_value r "token") (inl claims);
                 ALoadPayment (to_bytes (Claims_Account claims)) (inr err);
                 ALogError [LErr err];
                 AHttpError w "Internal Server Error" 500] |}.
Proof.
  intros Hne Hp Hl Herr. unfold_handlers. simpl_run.
  destruct (decide (form_value r "token" = "")); [contradiction|].
  rewrite Hp. simpl_run. rewrite Hl. simpl_run.
  destruct (decide (err = errPaymentNotFound)); [contradiction|]. reflexivity.
Qed.

End VerifyMore.

(** ** Further properties of [handleWebsocket] and of its subscriber *)

Section WebsocketMore.
Context `{D : Domain} `{C : !Collaborators}.

(** The shape of what the read loop does: reads that succeed, then, if the
    loop has ended, one read that failed. *)
Lemma readLoop_shape (fuel : nat) (conn : Conn) (w : World) :
  exists good : list Action,
    Forall (is_good_read conn) good /\
    match outcome (readLoop fuel conn w) with
    | Returned _ =>
      exists n err, trace (readLoop fuel conn w) = good ++ [AConnRead conn (n, Some err)]
    | Running => trace (readLoop fuel conn w) = good
    | Panicked => False
    end.
Proof.
  revert w. induction fuel as [|fuel IH]; intros w.
  - exists []. split; [constructor|reflexivity].
  - cbn -[readBufferSize]. unfold mbind, M_bind, bind, call.
    destruct (conn_Read conn readBufferSize w) as [[n [err|]] w'] eqn:Hrd; cbn.
    + exists []. split; [constructor|]. exists n, err. reflexivity.
    + destruct (IH w') as (good & Hgood & Hshape).
      destruct (readLoop fuel conn w') as [[[]| |] wf t]; cbn in *.
      * destruct Hshape as (k & err & ->).
        exists (AConnRead conn (n, None) :: good).
        split; [constructor; [exists n; reflexivity | exact Hgood]|].
        exists k, err. reflexivity.
      * contradiction.
      * subst t. exists (AConnRead conn (n, None) :: good).
        split; [constructor; [exists n; reflexivity | exact Hgood] | reflexivity].
Qed.

Lemma readLoop_all_reads (fuel : nat) (conn : Conn) (w : World) :
  Forall (fun a => is_ConnRead a = true) (trace (readLoop fuel conn w)).
Proof.
  revert w. induction fuel as [|fuel IH]; intros w; [constructor|].
  cbn -[readBufferSize]. unfold mbind, M_bind, bind, call.
  destruct (conn_Read conn readBufferSize w) as [[n [err|]] w'] eqn:Hrd; cbn.
  - repeat constructor.
  - specialize (IH w'). destruct (readLoop fuel conn w') as [[[]| |] wf t]; cbn in *;
      constructor; auto.
Qed.

Lemma reads_never (kind : Action -> bool) (t : list Action) :
  (forall a, is_ConnRead a = true -> kind a = false) ->
  Forall (fun a => is_ConnRead a = true) t ->
  never kind t.
Proof.
  intros Hk Ht. unfold never, calls. induction Ht as [|a t Ha Ht IH]; [reflexivity|].
  simpl. rewrite (Hk a Ha). exact IH.
Qed.

(** X13. A handler that has returned after subscribing has seen a read fail:
    what lies between the subscription and the cancellation is a run of
    reads that succeeded and then the one that reported the error.  As long
    as the reads succeed the subscription stays. *)
Theorem handleWebsocket_returns_on_read_error (fuel : nat) (conn : Conn)
    (w0 w1 w2 : World) (claims : TokenClaims) (cancel : CancelFunc) :
  form_value (Conn_Request conn) "token" ≠ "" ->
  ParseToken (form_value (Conn_Request conn) "token") w0 = (inl claims, w1) ->
  Subscribe (to_Account (Claims_Account claims))
            (subscriber conn (form_value (Conn_Request conn) "token")) w1 = (cancel, w2) ->
  outcome (handleWebsocket fuel conn w0) = Returned tt ->
  exists (good : list Action) (n : Z) (err : error),
    Forall (is_good_read conn) good /\
    trace (handleWebsocket fuel conn w0) =
      [AFormValue "token";
       AParseToken (form_value (Conn_Request conn) "token") (inl claims);
       ASubscribe (to_Account (Claims_Account claims)) cancel] ++
      good ++ [AConnRead conn (n, Some err); ACancel cancel].
Proof.
  intros Hne Hp Hs.
  unfold handleWebsocket, FormValue, mbind, M_bind, mret, M_ret, bind, call, emit, ret.
  simpl_run.
  destruct (decide (form_value (Conn_Request conn) "token" = "")); [contradiction|].
  rewrite Hp. simpl_run. rewrite Hs. simpl_run. unfold defer.
  destruct (readLoop_shape fuel conn w2) as (good & Hgood & Hshape).
  destruct (readLoop fuel conn w2) as [[[]| |] wf t]; cbn in *; try discriminate.
  intros _. destruct Hshape as (k & err & ->).
  exists good, k, err. split; [exact Hgood|].
  rewrite <- app_assoc. reflexivity.
Qed.

(** X14. Whatever the request and however long it is observed, the handler
    itself does not panic, writes nothing to the connection, sends no HTTP
    reply and does not touch the store; it subscribes at most once and never
    cancels more often than it subscribed. *)
Theorem handleWebsocket_quiet (fuel : nat) (conn : Conn) (w0 : World) :
  outcome (handleWebsocket fuel conn w0) ≠ Panicked /\
  never is_ConnWrite (trace (handleWebsocket fuel conn w0)) /\
  never is_response (trace (handleWebsocket fuel conn w0)) /\
  never is_LoadPayment (trace (handleWebsocket fuel conn w0)) /\
  never is_Save (trace (handleWebsocket fuel conn w0)) /\
  (length (calls is_Cancel (trace (handleWebsocket fuel conn w0)))
   <= length (calls is_Subscribe (trace (handleWebsocket fuel conn w0))) <= 1)%nat.
Proof.
  unfold handleWebsocket, FormValue, mbind, M_bind, mret, M_ret, bind, call, emit, ret.
  simpl_run.
  destruct (decide (form_value (Conn_Request conn) "token" = ""));
    [repeat split; try discriminate; simpl; lia|].
  destruct (ParseToken (form_value (Conn_Request conn) "token") w0) as [[claims|err] w1];
    simpl_run; [|repeat split; try discriminate; simpl; lia].
  destruct (Subscribe _ _ w1) as [cancel w2]. simpl_run. unfold defer.
  pose proof (readLoop_all_reads fuel conn w2) as Hall.
  pose proof (readLoop_reads_only fuel conn w2) as [_ Hnp].
  assert (Hn : forall kind, (forall a, is_ConnRead a = true -> kind a = false) ->
                            never kind (trace (readLoop fuel conn w2)))
    by (intros kind Hk; apply reads_never; assumption).
  pose proof (Hn is_ConnWrite ltac:(intros []; simpl; congruence)) as H1.
  pose proof (Hn is_response ltac:(intros []; simpl; congruence)) as H2.
  pose proof (Hn is_LoadPayment ltac:(intros []; simpl; congruence)) as H3.
  pose proof (Hn is_Save ltac:(intros []; simpl; congruence)) as H4.
  pose proof (Hn is_Cancel ltac:(intros []; simpl; congruence)) as H5.
  pose proof (Hn is_Subscribe ltac:(intros []; simpl; congruence)) as H6.
  unfold never, calls in *.
  destruct (readLoop fuel conn w2) as [[[]| |] wf t]; cbn in *; try contradiction.
  - rewrite !List.filter_app, H1, H2, H3, H4, H5, H6. cbn.
    repeat split; try discriminate; lia.
  - rewrite H1, H2, H3, H4, H5, H6. cbn. repeat split; try discriminate; lia.
Qed.

(** X15. What the subscriber does with a [PaymentVerified] event: it writes the
    encoded response for the event's payment and the subscriber's token to
    the connection, once, and returns whatever the write reported.  An
    event whose response cannot be encoded is dropped without a trace. *)
Theorem subscriber_delivery (conn : Conn) (token : string) (pv : PaymentVerified)
    (w0 : World) :
  match json_Marshal (NewResponse (pv_Payment pv) token) with
  | inl b =>
    subscriber conn token (EvPaymentVerified pv) w0 =
      {| outcome := Returned tt; final := (conn_Write conn b w0).2;
         trace := [AConnWrite conn b (conn_Write conn b w0).1] |}
  | inr _ =>
    subscriber conn token (EvPaymentVerified pv) w0 =
      {| outcome := Returned tt; final := w0; trace := [] |}
  end.
Proof.
  unfold_handlers. simpl_run.
  destruct (json_Marshal (NewResponse (pv_Payment pv) token)) as [b|err]; simpl_run.
  - destruct (conn_Write conn b w0) as [rw w1]. reflexivity.
  - reflexivity.
Qed.

End WebsocketMore.

(** ** [handlePrice] *)

Section PriceProofs.
Context `{D : Domain} `{C : !Collaborators} `{P : !PriceCollaborators}.

(** X16. When the oracle has no price, [handlePrice] logs the error and answers
    500 Internal Server Error; nothing is written as a body.  The method of
    the request plays no part. *)
Theorem handlePrice_lookup_fails (w : ResponseWriter) (r : Request) (w0 w1 : World)
    (err : error) :
  getNanoPrice (form_value r "currency") w0 = (inr err, w1) ->
  handlePrice w r w0 =
    {| outcome := Returned tt; final := w1;
       trace := [AFormValue "currency";
                 AGetNanoPrice (form_value r "currency") (inr err);
                 ALogError [LErr err];
                 AHttpError w "Internal Server Error" 500] |}.
Proof.
  intros Hp. unfold handlePrice. unfold_handlers. simpl_run. rewrite Hp. reflexivity.
Qed.

(** X17. When the oracle answers, the body is the encoding of the one-entry map
    from ["price"] to that price; a failed write is only logged at debug
    level.  If the encoding fails the reply is 500. *)
Theorem handlePrice_reply (w : ResponseWriter) (r : Request) (w0 w1 : World)
    (price : Decimal) :
  getNanoPrice (form_value r "currency") w0 = (inl price, w1) ->
  match json_Marshal_map {["price" := price]} with
  | inl b =>
    trace (handlePrice w r w0) =
      [AFormValue "currency"; AGetNanoPrice (form_value r "currency") (inl price);
       ARwWrite w b (rw_Write w b w1).1] ++
      match (rw_Write w b w1).1.2 with
      | Some err => [ALogDebug [LErr err]]
      | None => []
      end
  | inr err =>
    handlePrice w r w0 =
      {| outcome := Returned tt; final := w1;
         trace := [AFormValue "currency";
                   AGetNanoPrice (form_value r "currency") (inl price);
                   ALogError [LErr err];
                   AHttpError w "Internal Server Error" 500] |}
  end.
Proof.
  intros Hp. unfold handlePrice. unfold_handlers.
  cbn -[decide ToUpper form_value StatusText singletonM]. rewrite Hp.
  cbn -[decide ToUpper form_value StatusText singletonM].
  destruct (json_Marshal_map {["price" := price]}) as [b|err];
    cbn -[decide ToUpper form_value StatusText singletonM].
  - destruct (rw_Write w b w1) as [[k [e|]] w2]; reflexivity.
  - reflexivity.
Qed.

(** X18. Every run of [handlePrice] returns after exactly one reply and exactly
    one price lookup, made with the [currency] form value as it came, for
    any method and also when the value is empty.  It allocates nothing and
    stores nothing. *)
Theorem handlePrice_lookup_only (w : ResponseWriter) (r : Request) (w0 : World) :
  outcome (handlePrice w r w0) = Returned tt /\
  length (calls is_response (trace (handlePrice w r w0))) = 1%nat /\
  calls is_GetNanoPrice (trace (handlePrice w r w0)) =
    [AGetNanoPrice (form_value r "currency") (getNanoPrice (form_value r "currency") w0).1] /\
  never is_NewIndex (trace (handlePrice w r w0)) /\
  never is_Save (trace (handlePrice w r w0)) /\
  never is_StartChecking (trace (handlePrice w r w0)).
Proof.
  unfold handlePrice. unfold_handlers.
  cbn -[decide ToUpper form_value StatusText singletonM].
  destruct (getNanoPrice (form_value r "currency") w0) as [[price|err] w1];
    cbn -[decide ToUpper form_value StatusText singletonM]; [|repeat split].
  destruct (json_Marshal_map {["price" := price]}) as [b|err];
    cbn -[decide ToUpper form_value StatusText singletonM]; [|repeat split].
  destruct (rw_Write w b w1) as [[k [e|]] w2]; repeat split.
Qed.

End PriceProofs.

(** ** [runServer] *)

Lemma mux_Handle_fresh (pattern : string) (h : Route) (mux : gmap string Route) :
  pattern ≠ "" -> mux !! pattern = None ->
  mux_Handle pattern h mux = Some (<[pattern := h]> mux).
Proof.
  intros Hne Hfresh. unfold mux_Handle.
  destruct (decide (pattern = "")); [contradiction|]. rewrite Hfresh. reflexivity.
Qed.

Ltac fresh_pattern :=
  repeat (rewrite lookup_insert_ne by discriminate); apply lookup_empty.

(** Run the registrations of [register_routes]: each pattern is non-empty
    and new. *)
Ltac register :=
  repeat (rewrite mux_Handle_fresh; [cbn [mbind option_bind] | discriminate | fresh_pattern]).

Ltac mounted :=
  repeat (rewrite lookup_insert_ne by discriminate); apply lookup_insert_eq.

Section RunServerProofs.
Context `{D : Domain} `{S : !ServerCollaborators}.

Lemma register_routes_public (config : Config) :
  exists mux : gmap string Route,
    register_routes config = Some mux /\
    mux !! "/version" = Some {| route_handler := HVersion; route_rate_limited := false |} /\
    mux !! "/api/pay" = Some {| route_handler := HPay; route_rate_limited := true |} /\
    mux !! "/api/price" = Some {| route_handler := HPrice; route_rate_limited := true |} /\
    mux !! "/api/verify" = Some {| route_handler := HVerify; route_rate_limited := false |} /\
    mux !! "/websocket" = Some {| route_handler := HWebsocket; route_rate_limited := false |}.
Proof.
  unfold register_routes. register.
  destruct (decide (AdminPassword config ≠ "")); eexists; (split; [reflexivity|]);
    repeat split; mounted.
Qed.

(** X19. The registrations never panic: the patterns are non-empty and pairwise
    distinct.  The five public endpoints are mounted whatever the
    configuration, the pay and price endpoints behind the rate limiter, the
    verify, websocket and version endpoints not. *)
Theorem runServer_public_routes (config : Config) (w : World) :
  server_exit (runServer config w) ≠ ServerPanicked /\
  exists mux : gmap string Route,
    register_routes config = Some mux /\
    mux !! "/version" = Some {| route_handler := HVersion; route_rate_limited := false |} /\
    mux !! "/api/pay" = Some {| route_handler := HPay; route_rate_limited := true |} /\
    mux !! "/api/price" = Some {| route_handler := HPrice; route_rate_limited := true |} /\
    mux !! "/api/verify" = Some {| route_handler := HVerify; route_rate_limited := false |} /\
    mux !! "/websocket" = Some {| route_handler := HWebsocket; route_rate_limited := false |}.
Proof.
  split; [|apply register_routes_public].
  unfold runServer. destruct (register_routes_public config) as (mux & -> & _).
  destruct (decide (CertFile config ≠ "" ∧ KeyFile config ≠ "")).
  - destruct (ListenAndServeTLS _ _ _ w) as [err w'].
    destruct (decide (err = Some ErrServerClosed)); discriminate.
  - destruct (ListenAndServe _ w) as [err w'].
    destruct (decide (err = Some ErrServerClosed)); discriminate.
Qed.

(** X20. The admin endpoints exist only when an admin password is configured:
    without one the table holds the five public patterns and nothing else;
    with one, the five admin handlers are mounted as well, none of them
    behind the rate limiter. *)
Theorem runServer_admin_routes (config : Config) (mux : gmap string Route) :
  register_routes config = Some mux ->
  (AdminPassword config = "" ->
   dom mux = {[ "/version"; "/api/pay"; "/api/price"; "/api/verify"; "/websocket" ]}) /\
  (AdminPassword config ≠ "" ->
   size mux = 10%nat /\
   mux !! "/admin/payments/active"
     = Some {| route_handler := HAdminGetActivePayments; route_rate_limited := false |} /\
   mux !! "/admin/payment"
     = Some {| route_handler := HAdminGetPayment; route_rate_limited := false |} /\
   mux !! "/admin/check"
     = Some {| route_handler := HAdminCheckPayment; route_rate_limited := false |} /\
   mux !! "/admin/receive"
     = Some {| route_handler := HAdminReceivePending; route_rate_limited := false |} /\
   mux !! "/admin/send"
     = Some {| route_handler := HAdminSendToMerchant; route_rate_limited := false |}).
Proof.
  unfold register_routes. register.
  destruct (decide (AdminPassword config ≠ "")) as [Hp|Hp]; intros [= <-].
  - split; [intros He; contradiction|]. intros _. split.
    + repeat (rewrite map_size_insert_None by fresh_pattern). rewrite map_size_empty.
      reflexivity.
    + repeat split; mounted.
  - split; [|intros Hne; contradiction]. intros _.
    rewrite !dom_insert_L, dom_empty_L. set_solver.
Qed.

(** X21. TLS needs both files.  With a certificate and a key configured the
    server listens with TLS on those two files; if either is missing, also
    when only one of them is set, it listens in the clear.  Either way it
    listens on the configured address. *)
Theorem runServer_tls (config : Config) (w : World) :
  exists (srv : Server) (res : option error) (rest : list ServerAction),
    Addr srv = ListenAddress config /\
    (CertFile config ≠ "" -> KeyFile config ≠ "" ->
     server_trace (runServer config w)
       = AListenAndServeTLS srv (CertFile config) (KeyFile config) res :: rest) /\
    (CertFile config = "" \/ KeyFile config = "" ->
     server_trace (runServer config w) = AListenAndServe srv res :: rest).
Proof.
  unfold runServer. destruct (register_routes_public config) as (mux & -> & _).
  destruct (decide (CertFile config ≠ "" ∧ KeyFile config ≠ "")) as [[Hc Hk]|Hn].
  - destruct (ListenAndServeTLS _ _ _ w) as [err w'].
    destruct (decide (err = Some ErrServerClosed));
      exists {| Addr := ListenAddress config; Server_Handler := CorsDefault mux |}, err;
      eexists; (split; [reflexivity|]); (split; [reflexivity|]);
      intros [He|He]; contradiction.
  - destruct (ListenAndServe _ w) as [err w'].
    destruct (decide (err = Some ErrServerClosed));
      exists {| Addr := ListenAddress config; Server_Handler := CorsDefault mux |}, err;
      eexists; (split; [reflexivity|]); (split; [|reflexivity]);
      intros Hc Hk; tauto.
Qed.

(** X22. [runServer] returns only when the listener reports [ErrServerClosed].
    Any other result, a nil error included, goes to [log.Fatal]. *)
Theorem runServer_exit (config : Config) (w : World) :
  exists (l : ServerAction) (res : option error),
    ((exists srv, l = AListenAndServe srv res) \/
     (exists srv cert key, l = AListenAndServeTLS srv cert key res)) /\
    (res = Some ErrServerClosed ->
     server_exit (runServer config w) = ServerReturned /\
     server_trace (runServer config w) = [l]) /\
    (res ≠ Some ErrServerClosed ->
     server_exit (runServer config w) = ServerFatal /\
     server_trace (runServer config w) = [l; ALogFatal res]).
Proof.
  unfold runServer. destruct (register_routes_public config) as (mux & -> & _).
  destruct (decide (CertFile config ≠ "" ∧ KeyFile config ≠ "")).
  - destruct (ListenAndServeTLS _ _ _ w) as [err w'].
    destruct (decide (err = Some ErrServerClosed)); eexists _, err;
      (split; [right; eexists _, _, _; reflexivity|]); split; intros H;
      try contradiction; split; reflexivity.
  - destruct (ListenAndServe _ w) as [err w'].
    destruct (decide (err = Some ErrServerClosed)); eexists _, err;
      (split; [left; eexists; reflexivity|]); split; intros H;
      try contradiction; split; reflexivity.
Qed.

End RunServerProofs.

(** ** From the payment to its subscriber *)

Section PayThenWatch.
Context `{D : Domain} `{C : !Collaborators}.

Lemma handleWebsocket_subscribes (fuel : nat) (conn : Conn) (w0 w1 : World)
    (claims : TokenClaims) :
  form_value (Conn_Request conn) "token" ≠ "" ->
  ParseToken (form_value (Conn_Request conn) "token") w0 = (inl claims, w1) ->
  exists cancel : CancelFunc,
    In (ASubscribe (to_Account (Claims_Account claims)) cancel)
       (trace (handleWebsocket fuel conn w0)).
Proof.
  intros Hne Hp.
  unfold handleWebsocket, FormValue, mbind, M_bind, mret, M_ret, bind, call, emit, ret.
  simpl_run.
  destruct (decide (form_value (Conn_Request conn) "token" = "")); [contradiction|].
  rewrite Hp. simpl_run. destruct (Subscribe _ _ w1) as [cancel w2]. simpl_run.
  exists cancel. unfold defer.
  destruct (readLoop fuel conn w2) as [[[]| |] wf t]; cbn; tauto.
Qed.

(** X23. The event bus is keyed by account on both sides.  Suppose the token
    codec gives back the account a token was issued for.  Then a client that
    opens the websocket with the token of a stored payment is subscribed
    under the very account that [PaymentVerified.Account] reports for that
    payment. *)
Theorem pay_then_watch (w : ResponseWriter) (r : Request) (w0 : World)
    (p : Payment) (token : string)
    (fuel : nat) (conn : Conn) (w1 w2 : World) (claims : TokenClaims) :
  (forall index account tok c wa wb wc wd,
     NewToken index account wa = (inl tok, wb) ->
     ParseToken tok wc = (inl c, wd) ->
     Claims_Account c = account) ->
  In (ASave p None) (trace (handlePay w r w0)) ->
  In (ANewToken (Payment_Index p) (Payment_Account p) (inl token)) (trace (handlePay w r w0)) ->
  form_value (Conn_Request conn) "token" = token ->
  token ≠ "" ->
  ParseToken token w1 = (inl claims, w2) ->
  exists cancel : CancelFunc,
    In (ASubscribe (PaymentVerified_Account {| pv_Payment := p |}) cancel)
       (trace (handleWebsocket fuel conn w1)).
Proof.
  intros Hcodec Hsave Htok Hform Hne Hparse. subst token.
  enough (Hacc : Claims_Account claims = Payment_Account p).
  { unfold PaymentVerified_Account. cbn [pv_Payment]. rewrite <- Hacc.
    exact (handleWebsocket_subscribes fuel conn w1 w2 claims Hne Hparse). }
  revert Hsave Htok. generalize (form_value (Conn_Request conn) "token") Hparse.
  clear Hne Hparse. intros token Hparse.
  explore; intros Hsave Htok; pick_entry Hsave; pick_entry Htok.
  all: cbn [Payment_Account].
  all: eapply Hcodec; eassumption.
Qed.

End PayThenWatch.

(** ** The further properties at work on the concrete deployment *)

Section MoreWitnesses.
Import Bench.
#[local] Existing Instance Bench.domain.

Lemma handlePay_failure_before_save_witness :
  In (ANewIndex (inr "bucket not found")) (trace (Faults.pay Faults.IndexFault order world0)) /\
  calls is_response (trace (Faults.pay Faults.IndexFault order world0))
    = [AHttpError tt "Internal Server Error" 500] /\
  never is_Save (trace (Faults.pay Faults.IndexFault order world0)).
Proof.
  assert (H : In (ANewIndex (inr "bucket not found"))
                 (trace (Faults.pay Faults.IndexFault order world0)))
    by (vm_compute; do 3 right; left; reflexivity).
  destruct (handlePay_failure_before_save (D:=domain) (C:=Faults.broken Faults.IndexFault)
              tt order world0 _ (or_introl H)) as (_ & Hreply & _ & Hsave & _).
  split; [exact H|]. split; [exact Hreply | exact Hsave].
Defined.

Lemma handlePay_index_spent_witness :
  In (ASave order_payment (Some "store unavailable")) (trace (pay order store_down)) /\
  exists index : Index,
    calls is_NewIndex (trace (pay order store_down)) = [ANewIndex (inl index)] /\
    forall p : Payment, ~ In (ASave p None) (trace (pay order store_down)).
Proof.
  assert (H : In (ASave order_payment (Some "store unavailable"))
                 (trace (pay order store_down)))
    by (vm_compute; do 8 right; left; reflexivity).
  split; [exact H|].
  exact (handlePay_index_spent (D:=domain) (C:=collaborators) tt order store_down _
           (or_intror (or_intror (ex_intro _ order_payment H)))).
Defined.

Lemma handlePay_reply_after_check_witness :
  In (AStartChecking order_payment) (trace (pay order world0)) /\
  In (ASave order_payment None) (trace (pay order world0)).
Proof.
  assert (H : In (AStartChecking order_payment) (trace (pay order world0)))
    by (vm_compute; do 9 right; left; reflexivity).
  split; [exact H|].
  exact (proj1 (handlePay_reply_after_check (D:=domain) (C:=collaborators)
                  tt order world0 order_payment H)).
Defined.

Lemma handlePay_write_error_witness :
  In (ARwWrite tt "{state:order-1,token:tok.nano_7}" (0, Some "broken pipe"))
     (trace (Faults.pay Faults.WriteFault order world0)) /\
  outcome (Faults.pay Faults.WriteFault order world0) = Returned tt /\
  last (trace (Faults.pay Faults.WriteFault order world0))
    = Some (ALogDebug [LErr "broken pipe"]).
Proof.
  assert (H : In (ARwWrite tt "{state:order-1,token:tok.nano_7}" (0, Some "broken pipe"))
                 (trace (Faults.pay Faults.WriteFault order world0)))
    by (vm_compute; do 11 right; left; reflexivity).
  destruct (handlePay_write_error (D:=domain) (C:=Faults.broken Faults.WriteFault)
              tt order world0 _ _ _ H) as (Ho & Hlast & _).
  split; [exact H|]. split; [exact Ho | exact Hlast].
Defined.

Lemma handlePay_zero_price_witness :
  DivRound (Collaborators := collaborators) 10 0 6 = None /\
  pay order free_quote =
    {| outcome := Panicked; final := free_quote;
       trace := [AFormValue "amount"; AFormValue "currency"; AGetNanoPrice "usd" (inl 0)] |}.
Proof.
  assert (Hc : form_value order "currency" ≠ "") by (vm_compute; discriminate).
  split; [reflexivity|].
  exact (handlePay_zero_price (D:=domain) (C:=collaborators) tt order free_quote free_quote
           10 0 eq_refl eq_refl Hc eq_refl eq_refl).
Defined.

Lemma handlePay_payment_provenance_witness :
  In (ASave order_payment None) (trace (pay order world0)) /\
  exists (key : Key) (token : string) (now : Time),
    In (ANewIndex (inl 7%N)) (trace (pay order world0)) /\
    In (ADeterministicKey "seed" 7%N (inl key)) (trace (pay order world0)) /\
    "nano_7" = Key_Account key /\
    "pub" = Key_Public key /\
    In (ANewToken 7%N "nano_7" (inl token)) (trace (pay order world0)) /\
    In (ATimeNow now) (trace (pay order world0)) /\
    1000%N = now.
Proof.
  assert (H : In (ASave order_payment None) (trace (pay order world0)))
    by (vm_compute; do 8 right; left; reflexivity).
  split; [exact H|].
  exact (handlePay_payment_provenance (D:=domain) (C:=collaborators)
           tt order world0 order_payment None H).
Defined.

Lemma handlePay_native_skips_oracle_witness :
  form_value order_native "currency" = "" /\
  never is_GetNanoPrice (trace (pay order_native world0)).
Proof.
  assert (H : form_value order_native "currency" = "") by (vm_compute; reflexivity).
  split; [exact H|].
  exact (proj1 (handlePay_native_skips_oracle (D:=domain) (C:=collaborators)
                  tt order_native world0 H)).
Defined.

Lemma handleVerify_found_witness :
  trace (verify (with_token "tok.nano_1") world0) =
    [AFormValue "token";
     AParseToken "tok.nano_1" (inl {| Claims_Account := "nano_1" |});
     ALoadPayment "nano_1" (inl (blank "nano_1"));
     ARwWrite tt "{state:,token:tok.nano_1}" (25, None)].
Proof.
  assert (Hne : form_value (with_token "tok.nano_1") "token" ≠ "")
    by (vm_compute; discriminate).
  exact (handleVerify_found (D:=domain) (C:=collaborators) tt (with_token "tok.nano_1")
           world0 world0 world0 {| Claims_Account := "nano_1" |} (blank "nano_1")
           Hne eq_refl eq_refl).
Defined.

Lemma handleVerify_store_failure_witness :
  Faults.verify Faults.StoreFault (with_token "tok.nano_1") world0 =
    {| outcome := Returned tt; final := world0;
       trace := [AFormValue "token";
                 AParseToken "tok.nano_1" (inl {| Claims_Account := "nano_1" |});
                 ALoadPayment "nano_1" (inr "database not open");
                 ALogError [LErr "database not open"];
                 AHttpError tt "Internal Server Error" 500] |}.
Proof.
  assert (Hne : form_value (with_token "tok.nano_1") "token" ≠ "")
    by (vm_compute; discriminate).
  assert (Herr : "database not open" ≠ not_found) by discriminate.
  exact (handleVerify_store_failure (D:=domain) (C:=Faults.broken Faults.StoreFault)
           tt (with_token "tok.nano_1") world0 world0 world0
           {| Claims_Account := "nano_1" |} "database not open"
           Hne eq_refl eq_refl Herr).
Defined.

Lemma handleWebsocket_returns_on_read_error_witness :
  outcome (socket 5 (with_token "tok.nano_1") world0) = Returned tt /\
  exists (good : list Action) (n : Z) (err : error),
    Forall (is_good_read (connection (with_token "tok.nano_1"))) good /\
    trace (socket 5 (with_token "tok.nano_1") world0) =
      [AFormValue "token";
       AParseToken "tok.nano_1" (inl {| Claims_Account := "nano_1" |});
       ASubscribe "nano_1" 0%N] ++
      good ++ [AConnRead (connection (with_token "tok.nano_1")) (n, Some err); ACancel 0%N].
Proof.
  assert (Hne : form_value (Conn_Request (connection (with_token "tok.nano_1"))) "token" ≠ "")
    by (vm_compute; discriminate).
  assert (Ho : outcome (socket 5 (with_token "tok.nano_1") world0) = Returned tt)
    by (vm_compute; reflexivity).
  split; [exact Ho|].
  exact (handleWebsocket_returns_on_read_error (D:=domain) (C:=collaborators)
           5 (connection (with_token "tok.nano_1")) world0 world0 world1
           {| Claims_Account := "nano_1" |} 0%N Hne eq_refl eq_refl Ho).
Defined.

Lemma handlePrice_lookup_fails_witness :
  ServerBench.price (get [("currency", ["eur"])]) world0 =
    {| outcome := Returned tt; final := world0;
       trace := [AFormValue "currency"; AGetNanoPrice "eur" (inr "price unavailable");
                 ALogError [LErr "price unavailable"];
                 AHttpError tt "Internal Server Error" 500] |}.
Proof.
  exact (handlePrice_lookup_fails (D:=domain) (C:=collaborators)
           (P:=ServerBench.price_collaborators)
           tt (get [("currency", ["eur"])]) world0 world0 "price unavailable" eq_refl).
Defined.

Lemma handlePrice_reply_witness :
  trace (ServerBench.price (get [("currency", ["usd"])]) world0) =
    [AFormValue "currency"; AGetNanoPrice "usd" (inl 2);
     ARwWrite tt "{price:...}" (11, None)].
Proof.
  exact (handlePrice_reply (D:=domain) (C:=collaborators)
           (P:=ServerBench.price_collaborators)
           tt (get [("currency", ["usd"])]) world0 world0 2 eq_refl).
Defined.

Lemma runServer_admin_routes_witness :
  dom (default ∅ (register_routes ServerBench.open_config))
    = {[ "/version"; "/api/pay"; "/api/price"; "/api/verify"; "/websocket" ]} /\
  default ∅ (register_routes ServerBench.admin_config) !! "/admin/send"
    = Some {| route_handler := HAdminSendToMerchant; route_rate_limited := false |}.
Proof.
  destruct (register_routes_public ServerBench.open_config) as (m1 & H1 & _).
  destruct (register_routes_public ServerBench.admin_config) as (m2 & H2 & _).
  rewrite H1, H2. cbn [default].
  split.
  - exact (proj1 (runServer_admin_routes ServerBench.open_config m1 H1) eq_refl).
  - assert (Hp : AdminPassword ServerBench.admin_config ≠ "") by discriminate.
    destruct (proj2 (runServer_admin_routes ServerBench.admin_config m2 H2) Hp)
      as (_ & _ & _ & _ & _ & Hsend).
    exact Hsend.
Defined.

Lemma runServer_tls_witness :
  (exists srv res rest,
     server_trace (runServer (S:=ServerBench.server_collaborators)
                     ServerBench.open_config world0)
       = AListenAndServe srv res :: rest) /\
  (exists srv res rest,
     server_trace (runServer (S:=ServerBench.server_collaborators)
                     ServerBench.admin_config world0)
       = AListenAndServeTLS srv "cert.pem" "key.pem" res :: rest).
Proof.
  destruct (runServer_tls (D:=domain) (S:=ServerBench.server_collaborators)
              ServerBench.open_config world0) as (s1 & r1 & t1 & _ & _ & Hplain).
  destruct (runServer_tls (D:=domain) (S:=ServerBench.server_collaborators)
              ServerBench.admin_config world0) as (s2 & r2 & t2 & _ & Htls & _).
  split.
  - exists s1, r1, t1. apply Hplain. right. reflexivity.
  - exists s2, r2, t2. apply Htls; discriminate.
Defined.

Lemma runServer_exit_witness :
  server_exit (runServer (S:=ServerBench.server_collaborators)
                 ServerBench.open_config world0) = ServerReturned /\
  server_exit (runServer (S:=ServerBench.server_collaborators)
                 ServerBench.admin_config world0) = ServerFatal.
Proof.
  destruct (runServer_exit (D:=domain) (S:=ServerBench.server_collaborators)
              ServerBench.open_config world0) as (l1 & r1 & _ & Hret & Hfatal).
  destruct (runServer_exit (D:=domain) (S:=ServerBench.server_collaborators)
              ServerBench.admin_config world0) as (l2 & r2 & _ & Hret2 & Hfatal2).
  split.
  - destruct (decide (r1 = Some (ErrServerClosed (ServerCollaborators:=ServerBench.server_collaborators))))
      as [He|Hn]; [exact (proj1 (Hret He))|].
    destruct (Hfatal Hn) as [Hx _]. vm_compute in Hx. discriminate Hx.
  - destruct (decide (r2 = Some (ErrServerClosed (ServerCollaborators:=ServerBench.server_collaborators))))
      as [He|Hn]; [|exact (proj1 (Hfatal2 Hn))].
    destruct (Hret2 He) as [Hx _]. vm_compute in Hx. discriminate Hx.
Defined.

Lemma pay_then_watch_witness :
  exists cancel : CancelFunc,
    In (ASubscribe (PaymentVerified_Account {| pv_Payment := order_payment |}) cancel)
       (trace (socket 5 (with_token "tok.nano_7") world0)).
Proof.
  assert (Hcodec : forall index account tok c (wa wb wc wd : world),
             NewToken (Collaborators:=collaborators) index account wa = (inl tok, wb) ->
             ParseToken (Collaborators:=collaborators) tok wc = (inl c, wd) ->
             Claims_Account c = account).
  { intros index account tok c wa wb wc wd Hn Hp. cbn in Hn, Hp.
    injection Hn as <- _. cbn in Hp. injection Hp as <- _. reflexivity. }
  assert (Hs : In (ASave order_payment None) (trace (pay order world0)))
    by (vm_compute; do 8 right; left; reflexivity).
  assert (Ht : In (ANewToken 7%N "nano_7" (inl "tok.nano_7")) (trace (pay order world0)))
    by (vm_compute; do 5 right; left; reflexivity).
  assert (Hne : "tok.nano_7" ≠ "") by discriminate.
  exact (pay_then_watch (D:=domain) (C:=collaborators) tt order world0 order_payment
           "tok.nano_7" 5 (connection (with_token "tok.nano_7")) world0 world0
           {| Claims_Account := "nano_7" |} Hcodec Hs Ht eq_refl Hne eq_refl).
Defined.

End MoreWitnesses.
